(** * PaperLens front end: a shallow embedding of the client code

    The development follows the client sources of the repository:
    - [Js]        the fragment of JavaScript values and string operations the
                  client relies on ([||], [!], [===], [trim], [toLowerCase]);
    - [Api]       [services/api.js]: the local-storage cache and the five
                  request builders ([searchPapers], [fetchPaper], ...);
    - [ChatModal] the chat component: its React state and its handlers
                  ([initializePaper], [handleSendMessage], [quickAsk]);
    - [Dashboard] the dashboard page: selection for comparison,
                  [runCompare], [buildFilterPayload], [fetchPapers];
    - [Core]      the retrieval engine behind the HTTP endpoints.  Its code is
                  not part of the client sources; it is modelled from the
                  specification and every definition there says so;
    - [SearchPage] the dashboard page again: [handleSearch], paging, the
                  filter controls and the full [fetchPapers];
    - [LegacySearch] the search of pages/Dashboard.jsx and ResearchQuery,
                  which call [searchPapers] with a string;
    - [Routes]    the routes of App.jsx;
    - [Bot]       the chatbot form of the dashboard.

    Strings are Rocq strings, read as sequences of code units below 256.
    Numbers are the integer-valued doubles, held as the integer they equal
    ([Z]); the client never computes with fractions.  Every integer below
    2^53 in magnitude is a double; [round_double] gives the double nearest
    to a larger one. *)

Set Warnings "-register-all".
From Stdlib Require Import ZArith Ascii String List Bool Lia.
From stdpp Require Import base option list strings gmap.

Local Open Scope string_scope.
Local Open Scope Z_scope.

(* ===================================================================== *)
(** ** JavaScript values                                                  *)
(* ===================================================================== *)

Module Js.

(** A primitive value, as found in a property of a paper object or of a
    request argument.  A missing property reads as [Undefined]. *)
Inductive value : Type :=
| Undefined
| Null
| Num (n : Z)
| Str (s : string).

#[global] Instance value_eq_dec : EqDecision value.
Proof. solve_decision. Defined.

(** [ToBoolean]. *)
Definition truthy (v : value) : bool :=
  match v with
  | Undefined | Null => false
  | Num n => negb (n =? 0)
  | Str s => negb (String.eqb s "")
  end.

(** [a || b]: the left operand when it is truthy, the right one otherwise. *)
Definition or_else (a b : value) : value := if truthy a then a else b.

(** [a === b] on primitives. *)
Definition strict_eq (a b : value) : bool := bool_decide (a = b).

(** Decimal digits of a natural number, most significant first. *)
Fixpoint digits_fuel (fuel : nat) (n : N) (acc : string) : string :=
  match fuel with
  | O => acc
  | S fuel' =>
      let d := N.modulo n 10 in
      let acc' := String (ascii_of_N (48 + d)) acc in
      let q := N.div n 10 in
      if N.eqb q 0 then acc' else digits_fuel fuel' q acc'
  end.

Definition digits (n : N) : string :=
  digits_fuel (S (N.to_nat (N.log2 n))) n "".

(** 2^53: below it every natural number is a double. *)
Definition two53 : Z := 9007199254740992.

(** The double nearest to a natural number: 53 significant bits are kept,
    a tie goes to the even neighbour. *)
Definition round_double (a : Z) : Z :=
  if a <? two53 then a
  else
    let e := Z.log2 a - 52 in
    let q := Z.shiftr a e in
    let r := a - Z.shiftl q e in
    let half := Z.shiftl 1 (e - 1) in
    let q' := if (half <? r) || ((r =? half) && Z.odd q) then q + 1 else q in
    Z.shiftl q' e.

(** A rounded magnitude of 2^1024 or more is [Infinity]. *)
Definition overflows (v : Z) : bool := Z.shiftl 1 1024 <=? v.

(** A number that is an integer or infinite: what [parseInt] returns when
    it is not [NaN].  No difference is made between 0 and -0. *)
Inductive number : Type :=
| Finite (n : Z)
| Infinite (negative : bool).

Definition number_of (z : Z) : number :=
  let v := round_double (Z.abs z) in
  if overflows v then Infinite (z <? 0)
  else Finite (if z <? 0 then - v else v).

(** [Number::toString] for a double [v] of 2^53 or more, which has [nd]
    decimal digits: with [k] significant digits, the multiples of
    10^(nd-k) on both sides of [v] that read back as [v]; of two, the one
    nearer to [v], and the one with the even last digit when they are as
    near. *)
Definition candidate (v nd k : Z) : option Z :=
  let p := 10 ^ (nd - k) in
  let lo := (v / p) * p in
  let hi := lo + p in
  let ok_lo := round_double lo =? v in
  let ok_hi := round_double hi =? v in
  if ok_lo && ok_hi then
    Some (if v - lo <? hi - v then lo
          else if hi - v <? v - lo then hi
          else if Z.even (v / p) then lo else hi)
  else if ok_lo then Some lo
  else if ok_hi then Some hi
  else None.

(** The fewest significant digits are tried first; seventeen always read
    back. *)
Fixpoint shortest_from (fuel : nat) (v nd k : Z) : Z :=
  match fuel with
  | O => v
  | S fuel' =>
      match candidate v nd k with
      | Some c => c
      | None => shortest_from fuel' v nd (k + 1)
      end
  end.

Definition shortest (v : Z) : Z :=
  shortest_from 17 v (Z.of_nat (String.length (digits (Z.to_N v)))) 1.

Fixpoint strip_zeros (s : string) : string :=
  match s with
  | EmptyString => EmptyString
  | String c rest =>
      match strip_zeros rest with
      | EmptyString => if Ascii.eqb c "0" then EmptyString else String c EmptyString
      | kept => String c kept
      end
  end.

(** From 10^21 on, a number is written with an exponent: [1e+21],
    [1.1805916207174113e+21]. *)
Definition exponent_form (c : Z) : string :=
  let ds := digits (Z.to_N c) in
  let e := digits (N.of_nat (String.length ds - 1)) in
  match strip_zeros ds with
  | EmptyString => ds
  | String d EmptyString => String d ("e+" ++ e)
  | String d more => String d ("." ++ more ++ "e+" ++ e)
  end.

Definition print_double (v : Z) : string :=
  let c := shortest v in
  if c <? 10 ^ 21 then digits (Z.to_N c) else exponent_form c.

(** [String(v)], the conversion a template literal applies.  A number below
    2^53 in magnitude is written with all its digits; a larger one is
    rounded to its double and written as [Number::toString] does. *)
Definition to_string (v : value) : string :=
  match v with
  | Undefined => "undefined"
  | Null => "null"
  | Num n =>
      if Z.abs n <? two53 then
        if n <? 0 then "-" ++ digits (Z.to_N (- n)) else digits (Z.to_N n)
      else
        let v := round_double (Z.abs n) in
        (if n <? 0 then "-" else "")
        ++ (if overflows v then "Infinity" else print_double v)
  | Str s => s
  end.

(** White space removed by [String.prototype.trim], among the code units
    below 256: TAB, LF, VT, FF, CR, SPACE and NBSP. *)
Definition is_white (c : ascii) : bool :=
  let n := N_of_ascii c in
  ((9 <=? n) && (n <=? 13) || (n =? 32) || (n =? 160))%N.

Fixpoint trim_start (s : string) : string :=
  match s with
  | String c rest => if is_white c then trim_start rest else s
  | EmptyString => EmptyString
  end.

(** Reading from the right: a character is kept as soon as something that
    is not white space follows it or it is itself not white space. *)
Fixpoint trim_end (s : string) : string :=
  match s with
  | EmptyString => EmptyString
  | String c rest =>
      match trim_end rest with
      | EmptyString => if is_white c then EmptyString else String c EmptyString
      | kept => String c kept
      end
  end.

Definition trim (s : string) : string := trim_end (trim_start s).

(** [toLowerCase] on code units below 256: A-Z, and the Latin-1 capitals
    U+00C0..U+00DE except the multiplication sign U+00D7. *)
Definition lower_char (c : ascii) : ascii :=
  let n := N_of_ascii c in
  if ((65 <=? n) && (n <=? 90)
      || (192 <=? n) && (n <=? 222) && negb (n =? 215))%N
  then ascii_of_N (n + 32) else c.

Fixpoint toLowerCase (s : string) : string :=
  match s with
  | EmptyString => EmptyString
  | String c rest => String (lower_char c) (toLowerCase rest)
  end.

(** JSON documents, as returned by [response.json()]. *)
Inductive json : Type :=
| JNull
| JBool (b : bool)
| JNum (n : Z)
| JStr (s : string)
| JArr (items : list json)
| JObj (fields : list (string * json)).

Definition json_truthy (j : json) : bool :=
  match j with
  | JNull => false
  | JBool b => b
  | JNum n => negb (n =? 0)
  | JStr s => negb (String.eqb s "")
  | JArr _ | JObj _ => true
  end.

(** What a rejected promise carries. *)
Inductive error : Type :=
| Error (message : string)     (* [new Error(message)] *)
| TypeError                    (* a call on a non-function, a failed [fetch] *)
| SyntaxError.                 (* a body that is not JSON *)

(** How an [async] function settles. *)
Inductive settled (A : Type) : Type :=
| Resolved (a : A)
| Rejected (e : error).
Arguments Resolved {A} a.
Arguments Rejected {A} e.

End Js.

Export Js.

(* ===================================================================== *)
(** ** services/api.js                                                    *)
(* ===================================================================== *)

Module Api.

(** The [paper_info] object built by the chat component. *)
Record PaperInfo : Type := {
  pi_title : value;
  pi_authors : value;
  pi_year : value;
  pi_abstract : value;
  pi_url : value;
  pi_pdf_url : value;
  pi_externalIds : option (list (string * string))   (* [None]: no such key *)
}.

(** The shorter [paper_info] object built by [runCompare]. *)
Record CompareInfo : Type := {
  ci_title : value;
  ci_authors : value;
  ci_year : value;
  ci_abstract : value;
  ci_url : value
}.

(** The object the dashboard passes as the [filters] property of a search. *)
Record FilterPayload : Type := {
  open_access : option bool;
  year_min : option number;
  year_max : option number;
  min_citations : option number;
  venues : option (list string);
  publication_types : option (list string)
}.

(** The argument object of [searchPapers].  A property that is not given
    is [Undefined]. *)
Record SearchArgs : Type := {
  query : value;
  page : value;
  pageSize : value;
  filters : option FilterPayload
}.

(** The object handed to [JSON.stringify] for the body of each request. *)
Inductive body : Type :=
| SearchBody (query page page_size : value)
| FetchPaperBody (pdf_url paper_title : value) (paper_info : PaperInfo)
| AskQuestionBody (pdf_url : value) (question : string) (paper_info : PaperInfo)
| ComparePapersBody (paper_ids : list value) (papers_info : list CompareInfo)
    (comparison_query : string).

(** One call of [fetch]: always a POST of JSON with a bearer token. *)
Record request : Type := {
  req_url : string;
  req_authorization : string;
  req_body : body
}.

(** What comes back from [fetch]: no response at all, or a response with its
    [ok] flag and, when the body is JSON of the expected shape, its content. *)
Inductive reply (A : Type) : Type :=
| NetworkFailure
| Reply (ok : bool) (content : option A).
Arguments NetworkFailure {A}.
Arguments Reply {A} ok content.

(** The tail shared by the five request functions:
    [if (!response.ok) throw new Error(msg); return response.json()]. *)
Definition read_reply {A : Type} (msg : string) (r : reply A) : settled A :=
  match r with
  | NetworkFailure => Rejected TypeError
  | Reply false _ => Rejected (Error msg)
  | Reply true None => Rejected SyntaxError
  | Reply true (Some a) => Resolved a
  end.

(** The properties the client reads from the three kinds of answer; the
    records stand for bodies that are JSON objects. *)
Record FetchResult : Type := { fr_source_type : value }.

Record AskResponse : Type := {
  ar_answer : value;
  ar_source_type : value;
  ar_citation : value;
  ar_disclaimer : value
}.

Record CompareResponse : Type := { cr_comparison : value }.

(** The body of a reply to [/api/compare-papers] is kept as a whole by the
    dashboard: [None] is the body [null], which [response.json()] resolves
    with as with any other JSON text. *)
Definition CompareBody : Type := option CompareResponse.

(** [localStorage]: under each key, either text that parses back to
    [{data, timestamp}], or any other text. *)
Inductive stored : Type :=
| Entry (data : json) (timestamp : Z)
| Unreadable.

(** Effects, in the order in which they happen. *)
Inductive effect : Type :=
| GetItem (key : string)
| SetItem (key : string) (v : stored)
| Fetch (r : request).

(** What a function of this module runs against. *)
Record Env : Type := {
  API_URL : string;
  now_at_read : Z;               (* [Date.now()] in [getCachedData] *)
  now_at_write : Z;              (* [Date.now()] in [setCachedData] *)
  storage_has_room : bool;       (* [localStorage.setItem] does not throw *)
  search_backend : request -> reply json;
  fetch_paper_backend : request -> reply FetchResult;
  compare_backend : request -> reply CompareBody
}.

Definition bearer (token : value) : string := "Bearer " ++ to_string token.

(** [getCachedData]; [JNull] stands for [null]. *)
Definition getCachedData (now : Z) (st : gmap string stored) (key : string) : json :=
  match st !! key with
  | Some (Entry data timestamp) =>
      if now - timestamp <? 3600000 then data else JNull
  | Some Unreadable | None => JNull
  end.

(** [setCachedData]; a failing [setItem] is caught and nothing is stored. *)
Definition setCachedData (room : bool) (now : Z) (key : string) (data : json)
    (st : gmap string stored) : gmap string stored :=
  if room then <[key := Entry data now]> st else st.

(** A parameter default, [name = d]: used when the property is undefined. *)
Definition with_default (d : value) (v : value) : value :=
  match v with Undefined => d | _ => v end.

(** The guard [if (!query || !query.trim()) throw ...]: the text of the
    query when the guard lets it through. *)
Definition check_query (q : value) : settled string :=
  if negb (truthy q) then Rejected (Error "Query is required")
  else match q with
       | Str s =>
           if negb (truthy (Str (trim s))) then Rejected (Error "Query is required")
           else Resolved s
       | _ => Rejected TypeError        (* [query.trim] is not a function *)
       end.

Definition cacheKey (q : string) (page pageSize : value) : string :=
  "search_" ++ trim (toLowerCase q) ++ "_" ++ to_string page ++ "_" ++ to_string pageSize.

Definition search_request (env : Env) (q : string) (page pageSize token : value) : request :=
  {| req_url := API_URL env ++ "/api/search";
     req_authorization := bearer token;
     req_body := SearchBody (Str q) page pageSize |}.

(** The result of a call: how the promise settles, the storage afterwards
    and the effects performed. *)
Record run (A : Type) : Type := {
  settles : settled A;
  storage_after : gmap string stored;
  effects : list effect
}.
Arguments settles {A} r.
Arguments storage_after {A} r.
Arguments effects {A} r.

Definition searchPapers (env : Env) (args : SearchArgs) (token : value)
    (st : gmap string stored) : run json :=
  let page := with_default (Num 1) (page args) in
  let pageSize := with_default (Num 5) (pageSize args) in
  match check_query (query args) with
  | Rejected e => {| settles := Rejected e; storage_after := st; effects := [] |}
  | Resolved q =>
      let key := cacheKey q page pageSize in
      let cached := getCachedData (now_at_read env) st key in
      if json_truthy cached then
        {| settles := Resolved cached; storage_after := st; effects := [GetItem key] |}
      else
        let req := search_request env q page pageSize token in
        match read_reply "Failed to fetch papers" (search_backend env req) with
        | Rejected e =>
            {| settles := Rejected e; storage_after := st;
               effects := [GetItem key; Fetch req] |}
        | Resolved data =>
            let st' := setCachedData (storage_has_room env) (now_at_write env) key data st in
            {| settles := Resolved data; storage_after := st';
               effects := [GetItem key; Fetch req]
                          ++ (if storage_has_room env
                              then [SetItem key (Entry data (now_at_write env))] else []) |}
        end
  end.

(** [fetchPaper], [askQuestion] and [comparePapers] each send one request. *)
Definition fetchPaper_request (api_url : string) (pdfUrl paperTitle : value)
    (paperInfo : PaperInfo) (token : value) : request :=
  {| req_url := api_url ++ "/api/fetch-paper";
     req_authorization := bearer token;
     req_body := FetchPaperBody pdfUrl paperTitle paperInfo |}.

Definition askQuestion_request (api_url : string) (pdfUrl : value) (question : string)
    (paperInfo : PaperInfo) (token : value) : request :=
  {| req_url := api_url ++ "/api/ask-question";
     req_authorization := bearer token;
     req_body := AskQuestionBody pdfUrl question paperInfo |}.

Definition comparePapers_request (api_url : string) (paperIds : list value)
    (papersInfo : list CompareInfo) (comparisonQuery : string) (token : value) : request :=
  {| req_url := api_url ++ "/api/compare-papers";
     req_authorization := bearer token;
     req_body := ComparePapersBody paperIds papersInfo comparisonQuery |}.

Definition fetchPaper (r : reply FetchResult) : settled FetchResult :=
  read_reply "Failed to fetch paper" r.

Definition askQuestion (r : reply AskResponse) : settled AskResponse :=
  read_reply "Failed to get answer" r.

Definition comparePapers (r : reply CompareBody) : settled CompareBody :=
  read_reply "Failed to compare papers" r.

End Api.

(* ===================================================================== *)
(** ** Paper objects                                                      *)
(* ===================================================================== *)

Module Papers.

(** The object under [paper.paper], for papers that come wrapped from the
    saved-papers history. *)
Record Wrapped : Type := { w_url : value }.

(** A paper as the components receive it. *)
Record Paper : Type := {
  url : value;
  pdf_url : value;
  paper : option Wrapped;
  title : value;
  authors : value;
  year : value;
  abstract_ : value;
  external_ids : option (list (string * string));
  externalIds : option (list (string * string))
}.

(** [p.paper?.url] *)
Definition wrapped_url (p : Paper) : value :=
  match paper p with
  | Some w => w_url w
  | None => Undefined
  end.

(** [p.url || p.pdf_url || p.paper?.url], the key used by [initializePaper],
    [handleSendMessage], [quickAsk], [runCompare] and the result grid. *)
Definition url_key (p : Paper) : value :=
  or_else (or_else (url p) (pdf_url p)) (wrapped_url p).

(** [p.url || p.pdf_url], the key used by [toggleSelectForCompare]. *)
Definition toggle_key (p : Paper) : value := or_else (url p) (pdf_url p).

End Papers.

(* ===================================================================== *)
(** ** The chat component                                                 *)
(* ===================================================================== *)

Module ChatModal.
Import Api Papers.

Definition dquote : string := String (ascii_of_nat 34) EmptyString.
Definition newline : string := String (ascii_of_nat 10) EmptyString.

Inductive role : Type := user | assistant | system.

(** An element of [messages]; a property that is not set is [Undefined]. *)
Record message : Type := {
  m_role : role;
  content : value;
  m_sourceType : value;
  citation : value;
  disclaimer : value
}.

Definition plain (r : role) (text : string) : message :=
  {| m_role := r; content := Str text; m_sourceType := Undefined;
     citation := Undefined; disclaimer := Undefined |}.

(** The [useState] cells of the component. *)
Record state : Type := {
  messages : list message;
  input : string;
  loading : bool;
  paperReady : bool;
  processingPaper : bool;
  sourceType : value
}.

Definition initial : state :=
  {| messages := []; input := ""; loading := false; paperReady := false;
     processingPaper := true; sourceType := Null |}.

(** The calls the component may be waiting for. *)
Inductive ask_kind : Type := FromForm | FromButton.

Inductive call : Type :=
| Preparing                      (* [await fetchPaper(...)] in [initializePaper] *)
| Asking (k : ask_kind).         (* [await askQuestion(...)] in a handler *)

#[global] Instance ask_kind_eq_dec : EqDecision ask_kind.
Proof. solve_decision. Defined.

#[global] Instance call_eq_dec : EqDecision call.
Proof. solve_decision. Defined.

(** The component between two events: its state, the calls in flight and
    the requests sent so far, oldest first. *)
Record config : Type := {
  ui : state;
  in_flight : list call;
  sent : list request
}.

(** What the component is mounted with. *)
Record props : Type := {
  the_paper : Paper;
  token : value;
  api_url : string
}.

(** The object [paperInfo] of [initializePaper], [handleSendMessage] and
    [quickAsk]; the three build it alike. *)
Definition paperInfo (p : Paper) : PaperInfo :=
  let pdfUrl := url_key p in
  {| pi_title := title p;
     pi_authors := authors p;
     pi_year := year p;
     pi_abstract := abstract_ p;
     pi_url := pdfUrl;
     pi_pdf_url := or_else (pdf_url p) pdfUrl;
     pi_externalIds :=
       match external_ids p with
       | Some ids => Some ids
       | None => match externalIds p with Some ids => Some ids | None => Some [] end
       end |}.


Definition no_url_message : message :=
  plain system "Sorry, no PDF URL found for this paper. Unable to process.".

Definition processing_failed_message : message :=
  plain system
    ("Failed to process the paper. The PDF might not be accessible or there was "
     ++ "a processing error. You can still try asking questions.").

Definition ready_message (p : Paper) (source_type : value) : message :=
  {| m_role := assistant;
     content := Str ("I'm ready to answer questions about: " ++ dquote
                     ++ to_string (title p) ++ dquote ++ newline ++ newline
                     ++ "What would you like to know?");
     m_sourceType := source_type;
     citation := Undefined;
     disclaimer := Undefined |}.

(** [initializePaper] up to its [await]: what the mount effect leaves. *)
Definition mount (pr : props) : config :=
  let p := the_paper pr in
  let pdfUrl := url_key p in
  if negb (truthy pdfUrl) then
    {| ui := {| messages := [no_url_message]; input := input initial;
                loading := loading initial; paperReady := paperReady initial;
                processingPaper := false; sourceType := sourceType initial |};
       in_flight := [];
       sent := [] |}
  else
    {| ui := initial;
       in_flight := [Preparing];
       sent := [fetchPaper_request (api_url pr) pdfUrl (title p) (paperInfo p) (token pr)] |}.

(** [initializePaper] after its [await]: the [try] body, the [catch] and the
    [finally]. *)
Definition initializePaper_resume (pr : props) (r : settled FetchResult) (s : state) : state :=
  match r with
  | Resolved result =>
      {| messages := [ready_message (the_paper pr) (fr_source_type result)];
         input := input s;
         loading := loading s;
         paperReady := true;
         processingPaper := false;
         sourceType := fr_source_type result |}
  | Rejected _ =>
      {| messages := [processing_failed_message];
         input := input s;
         loading := loading s;
         paperReady := true;
         processingPaper := false;
         sourceType := sourceType s |}
  end.

(** The guard of [handleSendMessage]:
    [if (!input.trim() || loading || !paperReady) return]. *)
Definition send_blocked (s : state) : bool :=
  negb (truthy (Str (trim (input s)))) || loading s || negb (paperReady s).

(** The guard of [quickAsk]: [if (loading || !paperReady) return]. *)
Definition quick_blocked (s : state) : bool :=
  loading s || negb (paperReady s).

(** Both handlers up to their [await]: the input is cleared, the question
    is shown, [loading] is set and the request leaves. *)
Definition ask_begin (pr : props) (k : ask_kind) (question : string) (c : config) : config :=
  let s := ui c in
  let p := the_paper pr in
  {| ui := {| messages := messages s ++ [plain user question];
              input := "";
              loading := true;
              paperReady := paperReady s;
              processingPaper := processingPaper s;
              sourceType := sourceType s |};
     in_flight := in_flight c ++ [Asking k];
     sent := sent c ++ [askQuestion_request (api_url pr) (url_key p) question
                          (paperInfo p) (token pr)] |}.

Definition handleSendMessage (pr : props) (c : config) : config :=
  if send_blocked (ui c) then c
  else ask_begin pr FromForm (trim (input (ui c))) c.

Definition quickAsk (pr : props) (template : string) (c : config) : config :=
  if quick_blocked (ui c) then c
  else ask_begin pr FromButton template c.

(** The message each handler appends when its call settles. *)
Definition answer_message (k : ask_kind) (r : settled AskResponse) : message :=
  match k, r with
  | FromForm, Resolved response =>
      {| m_role := assistant;
         content := ar_answer response;
         m_sourceType := ar_source_type response;
         citation := ar_citation response;
         disclaimer := ar_disclaimer response |}
  | FromForm, Rejected _ => plain system "Failed to get answer. Please try again."
  | FromButton, Resolved response =>
      {| m_role := assistant;
         content := or_else (ar_answer response) (Str "No answer.");
         m_sourceType := ar_source_type response;
         citation := Undefined;
         disclaimer := ar_disclaimer response |}
  | FromButton, Rejected _ => plain system "Failed to get answer. Try again."
  end.

(** Both handlers after their [await], [finally] included. *)
Definition ask_resume (k : ask_kind) (r : settled AskResponse) (s : state) : state :=
  {| messages := messages s ++ [answer_message k r];
     input := input s;
     loading := false;
     paperReady := paperReady s;
     processingPaper := processingPaper s;
     sourceType := sourceType s |}.

(** What can happen to a mounted component. *)
Inductive event : Type :=
| Typed (text : string)                                  (* [onChange] of the input *)
| Submit                                                 (* [onSubmit] of the form *)
| Quick (template : string)                              (* a suggestion button *)
| PrepareSettles (r : settled FetchResult)
| AskSettles (k : ask_kind) (r : settled AskResponse).

(** Removes the first occurrence of a call, when there is one. *)
Fixpoint take_call (x : call) (l : list call) : option (list call) :=
  match l with
  | [] => None
  | y :: rest =>
      if bool_decide (x = y) then Some rest
      else match take_call x rest with
           | Some rest' => Some (y :: rest')
           | None => None
           end
  end.

Definition with_ui (f : state -> state) (c : config) : config :=
  {| ui := f (ui c); in_flight := in_flight c; sent := sent c |}.

Definition setInput (text : string) (s : state) : state :=
  {| messages := messages s; input := text; loading := loading s;
     paperReady := paperReady s; processingPaper := processingPaper s;
     sourceType := sourceType s |}.

(** One event.  A call can only settle while it is in flight; each handler
    runs on the state left by the previous event. *)
Definition step (pr : props) (c : config) (e : event) : config :=
  match e with
  | Typed text => with_ui (setInput text) c
  | Submit => handleSendMessage pr c
  | Quick template => quickAsk pr template c
  | PrepareSettles r =>
      match take_call Preparing (in_flight c) with
      | Some rest =>
          {| ui := initializePaper_resume pr r (ui c); in_flight := rest; sent := sent c |}
      | None => c
      end
  | AskSettles k r =>
      match take_call (Asking k) (in_flight c) with
      | Some rest =>
          {| ui := ask_resume k r (ui c); in_flight := rest; sent := sent c |}
      | None => c
      end
  end.

Definition run (pr : props) (c : config) (events : list event) : config :=
  fold_left (step pr) events c.



(** What the message list shows for one message. *)
Inductive fragment : Type :=
| AssistantHeader
| Paragraph (text : value)
| DisclaimerBox (text : value).

Definition render_message (m : message) : list fragment :=
  (match m_role m with assistant => [AssistantHeader] | _ => [] end)
  ++ [Paragraph (content m)]
  ++ (if truthy (disclaimer m) then [DisclaimerBox (disclaimer m)] else []).

(** Whether a request asks a question. *)
Definition is_question (r : request) : bool :=
  match req_body r with
  | AskQuestionBody _ _ _ => true
  | _ => false
  end.

End ChatModal.

(* ===================================================================== *)
(** ** The dashboard page                                                 *)
(* ===================================================================== *)

Module Dashboard.
Import Api Papers.

Definition PAGE_SIZE : Z := 5.

(** [filtersState]; the three numeric filters hold the text of their input. *)
Record FiltersState : Type := {
  openAccess : bool;
  yearMin : string;
  yearMax : string;
  minCitations : string;
  fs_venues : list string;
  publicationTypes : list string
}.

Definition createDefaultFilters : FiltersState :=
  {| openAccess := false; yearMin := ""; yearMax := ""; minCitations := "";
     fs_venues := []; publicationTypes := [] |}.

Definition digit_of (c : ascii) : option Z :=
  let n := N_of_ascii c in
  if ((48 <=? n) && (n <=? 57))%N then Some (Z.of_N n - 48) else None.

(** The leading decimal digits of a string, read into an accumulator;
    [None] when there is none to read. *)
Fixpoint read_digits (s : string) (acc : option Z) : option Z :=
  match s with
  | EmptyString => acc
  | String c rest =>
      match digit_of c with
      | Some d => read_digits rest (Some (10 * default 0 acc + d))
      | None => acc
      end
  end.

(** [parseInt(s, 10)], [None] for [NaN]: leading white space is skipped, a
    sign is accepted, digits are read up to the first other character, and
    the integer read is rounded to a double.  (Past twenty digits an
    implementation may read the further ones as zeros; they are read as
    written here.) *)
Definition parseInt (s : string) : option number :=
  match trim_start s with
  | String "-" rest => (fun m => number_of (- m)) <$> read_digits rest None
  | String "+" rest => number_of <$> read_digits rest None
  | rest => number_of <$> read_digits rest None
  end.

Definition non_empty (l : list string) : option (list string) :=
  match l with [] => None | _ => Some l end.

Definition buildFilterPayload (state : FiltersState) : FilterPayload :=
  {| open_access := if openAccess state then Some true else None;
     year_min := parseInt (yearMin state);
     year_max := parseInt (yearMax state);
     min_citations := parseInt (minCitations state);
     venues := non_empty (fs_venues state);
     publication_types := non_empty (publicationTypes state) |}.

(** The call of [searchPapers] made by [fetchPapers]. *)
Definition fetchPapers_args (searchQuery : value) (targetPage : Z)
    (stateFilters : FiltersState) : SearchArgs :=
  {| query := searchQuery;
     page := Num targetPage;
     pageSize := Num PAGE_SIZE;
     filters := Some (buildFilterPayload stateFilters) |}.

(** [fetchPapers]: the search it runs and the [error] text it leaves. *)
Definition fetchPapers (env : Env) (searchQuery : value) (targetPage : Z)
    (stateFilters : FiltersState) (token : value) (st : gmap string stored)
    : string * run json :=
  let r := searchPapers env (fetchPapers_args searchQuery targetPage stateFilters) token st in
  match settles r with
  | Resolved _ => ("", r)
  | Rejected _ => ("Failed to search papers. Please try again.", r)
  end.

(** The state cells [runCompare] and [toggleSelectForCompare] work on;
    [compareResult] is [null] ([None]) until a comparison ends. *)
Record state : Type := {
  selectedForCompare : list Paper;
  compareLoading : bool;
  compareResult : CompareBody
}.

(** [toggleSelectForCompare]: the functional update of the selection. *)
Definition toggleSelectForCompare (p : Paper) (prev : list Paper) : list Paper :=
  if existsb (fun q => strict_eq (toggle_key q) (toggle_key p)) prev
  then filter (fun q => negb (strict_eq (toggle_key q) (toggle_key p)) = true) prev
  else prev ++ [p].

Definition select (p : Paper) (s : state) : state :=
  {| selectedForCompare := toggleSelectForCompare p (selectedForCompare s);
     compareLoading := compareLoading s;
     compareResult := compareResult s |}.

(** [valid] in [runCompare]. *)
Definition valid_papers (selected : list Paper) : list Paper :=
  filter (fun p => truthy (url_key p) = true) selected.

(** The [paperInfo] object of [runCompare]: five keys, no [pdf_url] and no
    [externalIds]. *)
Definition paperInfo (p : Paper) : PaperInfo :=
  {| pi_title := title p; pi_authors := authors p; pi_year := year p;
     pi_abstract := abstract_ p; pi_url := url_key p;
     pi_pdf_url := Undefined; pi_externalIds := None |}.

Definition papersInfo (valid : list Paper) : list CompareInfo :=
  map (fun p => {| ci_title := title p; ci_authors := authors p; ci_year := year p;
                   ci_abstract := abstract_ p; ci_url := url_key p |}) valid.

(** The request [fetchPaper] sends for one paper of [valid]. *)
Definition prepare_request (env : Env) (token : value) (p : Paper) : request :=
  fetchPaper_request (API_URL env) (url_key p) (title p) (paperInfo p) token.

Definition compare_request (env : Env) (token : value) (comparisonQuery : string)
    (valid : list Paper) : request :=
  comparePapers_request (API_URL env) (map url_key valid) (papersInfo valid)
    comparisonQuery token.

Definition is_resolved {A : Type} (r : settled A) : bool :=
  match r with Resolved _ => true | Rejected _ => false end.

Definition comparison_failed : CompareResponse :=
  {| cr_comparison := Str "Comparison failed. Please try again." |}.

(** [runCompare]: the state it leaves and the requests it sends, in order.
    [Promise.all] starts one [fetchPaper] per valid paper and rejects when
    one of them does; [comparePapers] is called only after all resolved,
    and what it resolves with is stored as it is, [null] included. *)
Definition runCompare (env : Env) (token : value) (comparisonQuery : string)
    (s : state) : state * list request :=
  let valid := valid_papers (selectedForCompare s) in
  if (length valid <? 2)%nat then (s, [])
  else
    let prepares := map (prepare_request env token) valid in
    let prepared := map (fun r => fetchPaper (fetch_paper_backend env r)) prepares in
    let finish (result : CompareBody) :=
      {| selectedForCompare := selectedForCompare s;
         compareLoading := false;
         compareResult := result |} in
    if forallb is_resolved prepared then
      let req := compare_request env token comparisonQuery valid in
      match comparePapers (compare_backend env req) with
      | Resolved result => (finish result, (prepares ++ [req])%list)
      | Rejected _ => (finish (Some comparison_failed), (prepares ++ [req])%list)
      end
    else (finish (Some comparison_failed), prepares).

End Dashboard.

(* ===================================================================== *)
(** ** The engine behind the endpoints                                    *)
(* ===================================================================== *)

Module Core.

(** Modelled from the spec: the [PaperReference] of the data model.  The
    engine that serves [/api/fetch-paper] and [/api/ask-question] is not
    among the client sources.  An absent field is the empty string. *)
Record PaperReference : Type := {
  ref_title : string;
  ref_authors : string;
  ref_year : Z;
  ref_abstract : string;
  source_url : string
}.

(** Modelled from the spec: the four source types of a [SourceRecord]; the
    engine's declaration is missing. *)
Inductive SourceType : Type :=
| full_text_pdf_primary
| full_text_pdf_secondary
| metadata_only
| unavailable.

(** Modelled from the spec: [SourceRecord], produced by the resolver that
    is missing from the sources. *)
Record SourceRecord : Type := {
  paper_id : string;
  source_type : SourceType;
  raw_text : option string
}.

(** Modelled from the spec: [Chunk]; the ingestor is missing. *)
Record Chunk : Type := {
  chunk_paper_id : string;
  index : nat;
  text : string;
  char_span : nat * nat
}.

(** Modelled from the spec: [VectorIndex], the vectors of all chunks of one
    paper with the way back to the chunks, and the text it was built from. *)
Record VectorIndex : Type := {
  ix_text : string;
  ix_chunks : list Chunk;
  ix_vectors : list (list Z)
}.

(** Modelled from the spec: the capabilities the engine is configured with
    (full-text sources in priority order, chunking, embedding, ranked
    retrieval with its fixed [top_k], generation).  Each one is a function:
    the spec requires them deterministic.  [None] is a failed attempt. *)
Record Capabilities : Type := {
  paper_id_of : string -> string;
  primary_source : string -> option string;
  secondary_source : string -> option string;
  chunk : string -> string -> list Chunk;
  embed : list string -> option (list (list Z));
  query : VectorIndex -> string -> list Chunk;
  generate : string -> list string -> option string
}.

(** Modelled from the spec: the Source Resolver, [resolve] of section 4.1;
    its code is missing.  The full-text sources are tried in priority
    order, then the abstract, then nothing is left. *)
Definition resolve (caps : Capabilities) (reference : PaperReference) : SourceRecord :=
  let u := source_url reference in
  let pid := paper_id_of caps u in
  let full :=
    if String.eqb u "" then None
    else match primary_source caps u with
         | Some t => Some (full_text_pdf_primary, t)
         | None =>
             match secondary_source caps u with
             | Some t => Some (full_text_pdf_secondary, t)
             | None => None
             end
         end in
  match full with
  | Some (ty, t) => {| paper_id := pid; source_type := ty; raw_text := Some t |}
  | None =>
      if String.eqb (ref_abstract reference) "" then
        {| paper_id := pid; source_type := unavailable; raw_text := None |}
      else
        {| paper_id := pid; source_type := metadata_only;
           raw_text := Some (ref_title reference ++ ref_abstract reference) |}
  end.

(** Modelled from the spec: the handle [ensure_index] returns, either the
    index kept for the paper or the degenerate handle of section 4.4 with
    its single synthetic text.  In the engine's table of papers, no handle
    is [unprepared], [InIndex] is [ready], [Degenerate] is
    [ready(degraded)]. *)
Inductive IndexHandle : Type :=
| InIndex
| Degenerate (synthetic : option string).

(** Modelled from the spec: what the engine keeps between calls.  The map
    of indices belongs to the Vector Store Manager, the table of papers to
    the Answer Engine; [build_count] counts the indices built. *)
Record Engine : Type := {
  indices : gmap string VectorIndex;
  papers : gmap string IndexHandle;
  build_count : nat
}.

(** Modelled from the spec: [ensure_index] of section 4.4, whose code is
    missing.  [None] is an embedding failure.  An index built from the same
    text is returned as it is; metadata-only and unavailable records, and
    texts without chunks, skip embedding. *)
Definition ensure_index (caps : Capabilities) (pid : string) (rec : SourceRecord)
    (e : Engine) : option IndexHandle * Engine :=
  match source_type rec, raw_text rec with
  | metadata_only, t | unavailable, t => (Some (Degenerate t), e)
  | _, None => (Some (Degenerate None), e)
  | _, Some t =>
      let rebuild :=
        match chunk caps t pid with
        | [] => (Some (Degenerate None), e)
        | chunks =>
            match embed caps (map text chunks) with
            | None => (None, e)
            | Some vectors =>
                let ix := {| ix_text := t; ix_chunks := chunks; ix_vectors := vectors |} in
                (Some InIndex,
                 {| indices := <[pid := ix]> (indices e);
                    papers := papers e;
                    build_count := S (build_count e) |})
            end
        end in
      match indices e !! pid with
      | Some ix => if String.eqb (ix_text ix) t then (Some InIndex, e) else rebuild
      | None => rebuild
      end
  end.

(** Modelled from the spec: the result of [prepare] (section 6). *)
Inductive Prepared : Type :=
| PrepareOk (st : SourceType) (ready : bool)
| EmbeddingFailure.

(** Modelled from the spec: [prepare], resolver then [ensure_index], then
    the paper enters [ready] or [ready(degraded)]; a failed build leaves the
    engine as it was.  Its code is missing. *)
Definition prepare (caps : Capabilities) (reference : PaperReference) (e : Engine)
    : Prepared * Engine :=
  let rec := resolve caps reference in
  let pid := paper_id rec in
  match ensure_index caps pid rec e with
  | (None, _) => (EmbeddingFailure, e)
  | (Some h, e') =>
      (PrepareOk (source_type rec) true,
       {| indices := indices e';
          papers := <[pid := h]> (papers e');
          build_count := build_count e' |})
  end.

(** Modelled from the spec: an answer of the Answer Engine (section 4.5). *)
Record Answer : Type := {
  answer_text : string;
  citation : option (list nat);
  disclaimer : option string
}.

(** Modelled from the spec: the three ways a call of [answer] ends
    (sections 4.5 and 7); the engine's declaration is missing. *)
Inductive Answered : Type :=
| NotReady
| GenerationFailed
| AnswerOk (a : Answer).

(** Modelled from the spec: what a query of the degenerate handle returns,
    the single synthetic text when there is one (section 4.4). *)
Definition context_of (t : option string) : list string :=
  match t with Some s => [s] | None => [] end.

(** Modelled from the spec: [answer] of section 4.5, whose code is missing.
    In [ready] the chunks retrieved from the index ground the answer and
    give its citation; in [ready(degraded)] the synthetic text is the
    context, the disclaimer is set and the citation is left out. *)
Definition answer (caps : Capabilities) (e : Engine) (pid : string) (question : string)
    : Answered :=
  match papers e !! pid with
  | None => NotReady
  | Some InIndex =>
      let chunks :=
        match indices e !! pid with
        | Some ix => query caps ix question
        | None => []
        end in
      match generate caps question (map text chunks) with
      | None => GenerationFailed
      | Some t =>
          AnswerOk {| answer_text := t; citation := Some (map index chunks);
                      disclaimer := None |}
      end
  | Some (Degenerate synthetic) =>
      match generate caps question (context_of synthetic) with
      | None => GenerationFailed
      | Some t =>
          AnswerOk {| answer_text := t; citation := None;
                      disclaimer := Some "limited data available" |}
      end
  end.

(** Modelled from the spec: a source type as the [source_type] property of
    a reply.  The spec names the four source types and not the texts they
    travel under; the endpoint's code is missing.  The first three texts
    here are the ones the chat component compares [result.source_type]
    with (the spec's primary and secondary full-text sources taken as
    Semantic Scholar and arXiv); for the fourth, for which the component
    has no text of its own, the spec's name is used.  What is proved with
    this table holds under this reading of the replies only. *)
Definition wire_source_type (st : SourceType) : value :=
  match st with
  | full_text_pdf_primary => Str "semantic_scholar_pdf"
  | full_text_pdf_secondary => Str "arxiv_pdf"
  | metadata_only => Str "metadata"
  | unavailable => Str "unavailable"
  end.

(** Modelled from the spec: an optional field of an answer ([citation?],
    [disclaimer?]) is left out of the reply when it is not set. *)
Definition wire_optional (o : option string) : value :=
  match o with Some s => Str s | None => Undefined end.

(** Modelled from the spec: a citation names the chunks that contributed,
    written here as the list of their indices. *)
Fixpoint wire_citation_list (l : list nat) : string :=
  match l with
  | [] => ""
  | [i] => digits (N.of_nat i)
  | i :: rest => digits (N.of_nat i) ++ "," ++ wire_citation_list rest
  end.

(** Modelled from the spec: an answer as the body of the reply to
    [/api/ask-question]; the endpoint's code is missing. *)
Definition wire_answer (st : SourceType) (a : Answer) : Api.AskResponse :=
  {| Api.ar_answer := Str (answer_text a);
     Api.ar_source_type := wire_source_type st;
     Api.ar_citation := wire_optional (wire_citation_list <$> citation a);
     Api.ar_disclaimer := wire_optional (disclaimer a) |}.

End Core.

(* ===================================================================== *)
(** ** The dashboard page: searching, paging and filtering                *)
(* ===================================================================== *)

Module SearchPage.
Import Api Papers Dashboard.

(** The value of a property of a parsed JSON object.  A key given twice
    keeps its last value; a property of anything that is not an object is
    undefined ([None]). *)
Fixpoint lookup_field (k : string) (fields : list (string * json)) : option json :=
  match fields with
  | [] => None
  | (k', v) :: rest =>
      match lookup_field k rest with
      | Some v' => Some v'
      | None => if String.eqb k k' then Some v else None
      end
  end.

Definition get (j : json) (k : string) : option json :=
  match j with
  | JObj fields => lookup_field k fields
  | _ => None
  end.

(** [x || d] for a property that may be undefined. *)
Definition or_default (x : option json) (d : json) : json :=
  match x with
  | Some j => if json_truthy j then j else d
  | None => d
  end.

(** [x ?? null] *)
Definition or_null (x : option json) : json :=
  match x with
  | Some j => j
  | None => JNull
  end.

(** [response.filters?.k] *)
Definition filters_field (response : json) (k : string) : option json :=
  match get response "filters" with
  | Some JNull | None => None
  | Some f => get f k
  end.

Record AvailableFilters : Type := {
  af_venues : json;
  af_publication_types : json;
  af_year_min : json;
  af_year_max : json
}.

(** The state cells of the page that searching works on. *)
Record state : Type := {
  query : string;
  papers : json;
  loading : bool;
  error : string;
  page : Z;
  meta : json;
  filtersState : FiltersState;
  availableFilters : AvailableFilters
}.

(** The page with the storage its searches go through and the effects of
    those searches so far. *)
Record world : Type := {
  ui : state;
  storage : gmap string stored;
  log : list effect
}.

Definition failed_text : string := "Failed to search papers. Please try again.".

(** The [try] body of [fetchPapers] once [searchPapers] has resolved.
    Reading a property of [null] throws, which the [catch] turns into the
    error text. *)
Definition show_response (targetPage : Z) (response : json) (s : state) : state :=
  match response with
  | JNull =>
      {| query := query s; papers := papers s; loading := false; error := failed_text;
         page := page s; meta := meta s; filtersState := filtersState s;
         availableFilters := availableFilters s |}
  | _ =>
      {| query := query s;
         papers := or_default (get response "results") (JArr []);
         loading := false;
         error := "";
         page := targetPage;
         meta := or_default (get response "meta") JNull;
         filtersState := filtersState s;
         availableFilters :=
           {| af_venues := or_default (filters_field response "venues") (JArr []);
              af_publication_types :=
                or_default (filters_field response "publication_types") (JArr []);
              af_year_min := or_null (filters_field response "year_min");
              af_year_max := or_null (filters_field response "year_max") |} |}
  end.

(** [fetchPapers], with the state it leaves. *)
Definition fetchPapers (env : Env) (token : value) (searchQuery : string) (targetPage : Z)
    (stateFilters : FiltersState) (w : world) : world :=
  let r := searchPapers env (fetchPapers_args (Str searchQuery) targetPage stateFilters)
             token (storage w) in
  let s := ui w in
  {| ui := match settles r with
           | Resolved response => show_response targetPage response s
           | Rejected _ =>
               {| query := query s; papers := papers s; loading := false;
                  error := failed_text; page := page s; meta := meta s;
                  filtersState := filtersState s;
                  availableFilters := availableFilters s |}
           end;
     storage := storage_after r;
     log := (log w ++ effects r)%list |}.

Definition set_query_and_clear (q : string) (w : world) : world :=
  {| ui := {| query := q; papers := JArr []; loading := loading (ui w);
              error := error (ui w); page := page (ui w); meta := meta (ui w);
              filtersState := filtersState (ui w);
              availableFilters := availableFilters (ui w) |};
     storage := storage w; log := log w |}.

(** [handleSearch]; the argument is [None] when the caller passes nothing. *)
Definition handleSearch (env : Env) (token : value) (searchQuery : option string)
    (w : world) : world :=
  let typed := match searchQuery with Some s => Str (trim s) | None => Undefined end in
  match or_else typed (Str (trim (query (ui w)))) with
  | Str normalizedQuery =>
      if truthy (Str normalizedQuery) then
        fetchPapers env token normalizedQuery 1 (filtersState (ui w))
          (set_query_and_clear normalizedQuery w)
      else w
  | _ => w
  end.

Inductive direction : Type := next | prev.

(** [handlePageChange] *)
Definition handlePageChange (env : Env) (token : value) (d : direction) (w : world) : world :=
  if negb (truthy (Str (query (ui w)))) then w
  else
    let nextPage := match d with next => page (ui w) + 1 | prev => page (ui w) - 1 end in
    fetchPapers env token (query (ui w)) nextPage (filtersState (ui w)) w.

(** [handleApplyFilters] *)
Definition handleApplyFilters (env : Env) (token : value) (w : world) : world :=
  if negb (truthy (Str (query (ui w)))) then w
  else fetchPapers env token (query (ui w)) 1 (filtersState (ui w)) w.

Definition with_filters (f : FiltersState) (w : world) : world :=
  {| ui := {| query := query (ui w); papers := papers (ui w); loading := loading (ui w);
              error := error (ui w); page := page (ui w); meta := meta (ui w);
              filtersState := f; availableFilters := availableFilters (ui w) |};
     storage := storage w; log := log w |}.

(** [handleClearFilters] *)
Definition handleClearFilters (env : Env) (token : value) (w : world) : world :=
  let w' := with_filters createDefaultFilters w in
  if truthy (Str (query (ui w))) then
    fetchPapers env token (query (ui w)) 1 createDefaultFilters w'
  else w'.

(** [handleToggleFilter('openAccess', { autoApply: true })], the only use
    the page makes of it. *)
Definition handleToggleFilter (env : Env) (token : value) (w : world) : world :=
  let prev := filtersState (ui w) in
  let next :=
    {| openAccess := negb (openAccess prev); yearMin := yearMin prev;
       yearMax := yearMax prev; minCitations := minCitations prev;
       fs_venues := fs_venues prev; publicationTypes := publicationTypes prev |} in
  if truthy (Str (query (ui w))) then
    with_filters next (fetchPapers env token (query (ui w)) 1 next w)
  else with_filters next w.

(** A [Set] built from an array: its elements in the order of their first
    occurrence. *)
Fixpoint set_of (l : list string) (seen : list string) : list string :=
  match l with
  | [] => seen
  | x :: rest =>
      if existsb (String.eqb x) seen then set_of rest seen
      else set_of rest (seen ++ [x])%list
  end.

(** The update made by [handleMultiSelectChange] on the list under its
    key: out of the set when it is there, at its end otherwise. *)
Definition multiSelectChange (option : string) (prev : list string) : list string :=
  let current := set_of prev [] in
  if existsb (String.eqb option) current
  then filter (fun x => negb (String.eqb option x) = true) current
  else (current ++ [option])%list.

(** [filtersActive] *)
Definition filtersActive (f : FiltersState) : bool :=
  openAccess f
  || truthy (Str (yearMin f))
  || truthy (Str (yearMax f))
  || truthy (Str (minCitations f))
  || negb (Nat.eqb (length (fs_venues f)) 0)
  || negb (Nat.eqb (length (publicationTypes f)) 0).

(** [isSelected] in the result grid. *)
Definition isSelected (selectedForCompare : list Paper) (p : Paper) : bool :=
  existsb (fun q => strict_eq (url_key q) (url_key p)) selectedForCompare.

End SearchPage.

(* ===================================================================== *)
(** ** pages/Dashboard.jsx and ResearchQuery: the search with a string    *)
(* ===================================================================== *)

Module LegacySearch.
Import Api.

(** What a caller hands to [searchPapers] as its first argument. *)
Inductive argument : Type :=
| Object (args : SearchArgs)
| Text (s : string).

(** The parameter pattern [{ query, page = 1, pageSize = 5 }] applied to
    the argument: a string has none of these properties. *)
Definition destructure (x : argument) : SearchArgs :=
  match x with
  | Object args => args
  | Text _ => {| query := Undefined; page := Undefined; pageSize := Undefined;
                 filters := None |}
  end.

Definition searchPapers_called (env : Env) (x : argument) (token : value)
    (st : gmap string stored) : run json :=
  searchPapers env (destructure x) token st.

(** The state cells of the older page that [handleSearch] works on. *)
Record state : Type := {
  papers : json;
  loading : bool;
  error : string
}.

(** [handleSearch] of pages/Dashboard.jsx: nothing happens for a blank
    text; otherwise the list is cleared, [searchPapers(searchQuery, token)]
    is awaited and [response.results || []] is shown, or the error text.
    The second component is the run of [searchPapers], when it was called. *)
Definition handleSearch (env : Env) (token : value) (searchQuery : string)
    (st : gmap string stored) (s : state) : state * option (run json) :=
  if negb (truthy (Str (trim searchQuery))) then (s, None)
  else
    let r := searchPapers_called env (Text searchQuery) token st in
    let failed :=
      {| papers := JArr []; loading := false;
         error := "Failed to search papers. Please try again." |} in
    match settles r with
    | Rejected _ => (failed, Some r)
    | Resolved JNull => (failed, Some r)
    | Resolved response =>
        ({| papers := SearchPage.or_default (SearchPage.get response "results") (JArr []);
            loading := false; error := "" |}, Some r)
    end.

End LegacySearch.

(* ===================================================================== *)
(** ** App.jsx: the routes                                                *)
(* ===================================================================== *)

Module Routes.

(** The location, by the route pattern it matches: [/], [/login],
    [/register], [/dashboard], or none of the four.  There is no catch-all
    route. *)
Inductive path : Type := root | login | register | dashboard | unmatched.

(** [Nothing]: no route matches and [Routes] renders [null]. *)
Inductive element : Type :=
| Spinner
| Landing
| Login
| Register
| Dashboard
| Navigate (to : path)
| Nothing.

(** What [App] renders at a path: the spinner while the authentication
    state is unknown, then the element of the matching route. *)
Definition render (loading : bool) (signed_in : bool) (p : path) : element :=
  if loading then Spinner
  else match p with
       | root => Landing
       | login => if signed_in then Navigate dashboard else Login
       | register => if signed_in then Navigate dashboard else Register
       | dashboard => if signed_in then Dashboard else Navigate login
       | unmatched => Nothing
       end.

(** Following [Navigate] elements, at most [fuel] times: the page shown at
    the end, if one is. *)
Fixpoint settle (fuel : nat) (loading signed_in : bool) (p : path) : option element :=
  match render loading signed_in p with
  | Navigate to =>
      match fuel with
      | O => None
      | S fuel' => settle fuel' loading signed_in to
      end
  | e => Some e
  end.

End Routes.

(* ===================================================================== *)
(** ** The dashboard page: the chatbot form                               *)
(* ===================================================================== *)

Module Bot.

Inductive role : Type := user | assistant | system.

Record state : Type := {
  botMessages : list (role * string);
  botInput : string;
  botLoading : bool
}.

(** [chatbotMessage]: it throws whatever it is given. *)
Definition chatbotMessage (msg : string) (token : value) : settled string :=
  Rejected (Error "Chatbot endpoint not configured").

(** [sendBotMessage], from the submit to the [finally]. *)
Definition sendBotMessage (token : value) (s : state) : state :=
  let msg := trim (botInput s) in
  if negb (truthy (Str msg)) || botLoading s then s
  else
    let shown := (botMessages s ++ [(user, msg)])%list in
    match chatbotMessage msg token with
    | Resolved reply =>
        {| botMessages := (shown ++ [(assistant, reply)])%list;
           botInput := ""; botLoading := false |}
    | Rejected _ =>
        {| botMessages := (shown ++ [(system, "Chatbot error. Please try again.")])%list;
           botInput := ""; botLoading := false |}
    end.

Definition setBotInput (text : string) (s : state) : state :=
  {| botMessages := botMessages s; botInput := text; botLoading := botLoading s |}.

End Bot.

(* ===================================================================== *)
(** ** Notions used in the statements                                     *)
(* ===================================================================== *)

Import Api Papers.
Local Open Scope list_scope.

(** A string made of white space only (the empty string included). *)
Fixpoint all_white (s : string) : bool :=
  match s with
  | EmptyString => true
  | String c rest => is_white c && all_white rest
  end.

(** A query the guard of [searchPapers] is meant to refuse: no query at
    all, or a text with nothing but white space in it. *)
Definition missing_query (q : value) : Prop :=
  q = Undefined \/ q = Null \/ exists s, q = Str s /\ all_white s = true.

(** The events by which a question is asked, from the form (type, then
    submit) or from a suggestion button. *)
Definition ask_events (k : ChatModal.ask_kind) (text : string) : list ChatModal.event :=
  match k with
  | ChatModal.FromForm => [ChatModal.Typed text; ChatModal.Submit]
  | ChatModal.FromButton => [ChatModal.Quick text]
  end.

(** The question that leaves: the form trims it, a button sends its text. *)
Definition asked (k : ChatModal.ask_kind) (text : string) : string :=
  match k with
  | ChatModal.FromForm => trim text
  | ChatModal.FromButton => text
  end.

(** The form only sends a text with a visible character. *)
Definition askable (k : ChatModal.ask_kind) (text : string) : Prop :=
  match k with
  | ChatModal.FromForm => all_white text = false
  | ChatModal.FromButton => True
  end.

Definition question_request (pr : ChatModal.props) (question : string) : request :=
  askQuestion_request (ChatModal.api_url pr) (url_key (ChatModal.the_paper pr)) question
    (ChatModal.paperInfo (ChatModal.the_paper pr)) (ChatModal.token pr).

(** The branch taken by the chain of comparisons of [initializePaper] on
    [result.source_type], named after the source type it handles. *)
Definition source_case (source_type : value) : Core.SourceType :=
  if strict_eq source_type (Str "semantic_scholar_pdf") then Core.full_text_pdf_primary
  else if strict_eq source_type (Str "arxiv_pdf") then Core.full_text_pdf_secondary
  else if strict_eq source_type (Str "metadata") then Core.metadata_only
  else Core.unavailable.

(** While the paper is not ready nothing but the preparation can be in
    flight and no question has left; once it is ready the preparation is
    over. *)
Definition waiting_inv (c : ChatModal.config) : Prop :=
  if ChatModal.paperReady (ChatModal.ui c)
  then ~ In ChatModal.Preparing (ChatModal.in_flight c)
  else (ChatModal.in_flight c = [ChatModal.Preparing] \/ ChatModal.in_flight c = [])
       /\ (forall r, In r (ChatModal.sent c) -> ChatModal.is_question r = false).


(** Whether a request asks for the preparation of a paper. *)
Definition is_prepare (r : request) : bool :=
  match req_body r with
  | FetchPaperBody _ _ _ => true
  | _ => false
  end.

(** Every preparation started by [runCompare] resolves. *)
Definition all_prepared (env : Env) (token : value) (valid : list Paper) : Prop :=
  Forall (fun p => exists r,
            fetchPaper (fetch_paper_backend env (Dashboard.prepare_request env token p))
            = Resolved r) valid.

(* ===================================================================== *)
(** ** Sample data                                                        *)
(* ===================================================================== *)

(** A backend that cannot be reached. *)
Definition quiet_env : Env :=
  {| API_URL := "http://localhost:8000";
     now_at_read := 0; now_at_write := 0; storage_has_room := true;
     search_backend := fun _ => NetworkFailure;
     fetch_paper_backend := fun _ => NetworkFailure;
     compare_backend := fun _ => NetworkFailure |}.

(** A backend that prepares every paper from its metadata and answers
    every comparison. *)
Definition ok_env : Env :=
  {| API_URL := "http://localhost:8000";
     now_at_read := 0; now_at_write := 0; storage_has_room := true;
     search_backend := fun _ => Reply true (Some (JObj []));
     fetch_paper_backend := fun _ => Reply true (Some {| fr_source_type := Str "metadata" |});
     compare_backend := fun _ => Reply true (Some (Some {| cr_comparison := Str "Both study X." |})) |}.

Definition blank_args : SearchArgs :=
  {| query := Str "  "; page := Undefined; pageSize := Undefined; filters := None |}.

Definition graph_args (f : option FilterPayload) : SearchArgs :=
  {| query := Str "Graph Learning"; page := Num 2; pageSize := Undefined; filters := f |}.

Definition filters_2020 : FilterPayload :=
  {| open_access := Some true; year_min := Some (Finite 2020); year_max := None;
     min_citations := None; venues := None; publication_types := None |}.


Definition paper_at (u : string) (t : string) : Paper :=
  {| url := Str u; pdf_url := Undefined; paper := None;
     title := Str t; authors := Str "N. N."; year := Num 2024;
     abstract_ := Str "Studies X."; external_ids := None; externalIds := None |}.

Definition wrapped_paper_at (u : string) (t : string) : Paper :=
  {| url := Undefined; pdf_url := Undefined; paper := Some {| w_url := Str u |};
     title := Str t; authors := Undefined; year := Undefined;
     abstract_ := Undefined; external_ids := None; externalIds := None |}.

Definition chat_of (p : Paper) : ChatModal.props :=
  {| ChatModal.the_paper := p; ChatModal.token := Str "t0";
     ChatModal.api_url := "http://localhost:8000" |}.

Definition ready_chat (p : Paper) : ChatModal.config :=
  ChatModal.run (chat_of p) (ChatModal.mount (chat_of p))
    [ChatModal.PrepareSettles (Resolved {| fr_source_type := Str "metadata" |})].

Definition sample_response : AskResponse :=
  {| ar_answer := Str "It studies X."; ar_source_type := Str "semantic_scholar_pdf";
     ar_citation := Str "p. 1"; ar_disclaimer := Undefined |}.

Definition selection (l : list Paper) : Dashboard.state :=
  {| Dashboard.selectedForCompare := l;
     Dashboard.compareLoading := false;
     Dashboard.compareResult := None |}.

Definition one_selected : Dashboard.state :=
  selection [paper_at "http://x/a.pdf" "A"].

Definition two_selected : Dashboard.state :=
  selection [paper_at "http://x/a.pdf" "A"; paper_at "http://x/b.pdf" "B"].

(** An engine nothing reaches: every source fails, no text has chunks. *)
Definition offline_caps : Core.Capabilities :=
  {| Core.paper_id_of := fun u => u;
     Core.primary_source := fun _ => None;
     Core.secondary_source := fun _ => None;
     Core.chunk := fun _ _ => [];
     Core.embed := fun _ => Some [];
     Core.query := fun _ _ => [];
     Core.generate := fun _ context => Some (String.concat " " ("The paper:" :: context)) |}.


Definition empty_engine : Core.Engine :=
  {| Core.indices := ∅; Core.papers := ∅; Core.build_count := 0 |}.

Definition paper_A : Core.PaperReference :=
  {| Core.ref_title := "A"; Core.ref_authors := ""; Core.ref_year := 2024;
     Core.ref_abstract := "Studies X."; Core.source_url := "http://x/a.pdf" |}.

(* ===================================================================== *)
(** ** Further notions                                                    *)
(* ===================================================================== *)

(** A string made of decimal digits only. *)
Fixpoint all_digits (s : string) : bool :=
  match s with
  | EmptyString => true
  | String c rest =>
      match Dashboard.digit_of c with
      | Some _ => all_digits rest
      | None => false
      end
  end.

(** A text that does not go on with a digit. *)
Definition stops (rest : string) : Prop :=
  match rest with
  | EmptyString => True
  | String c _ => Dashboard.digit_of c = None
  end.

(** Whether a character occurs in a string. *)
Fixpoint occurs (c : ascii) (s : string) : bool :=
  match s with
  | EmptyString => false
  | String d rest => Ascii.eqb c d || occurs c rest
  end.

(** The selection left by ticking the boxes of a run of papers, starting
    from an empty selection. *)
Definition toggles (ps : list Paper) : list Paper :=
  fold_left (fun sel p => Dashboard.toggleSelectForCompare p sel) ps [].

(** The questions the conversation shows, oldest first. *)
Definition questions_shown (msgs : list ChatModal.message) : list string :=
  flat_map (fun m => match ChatModal.m_role m, ChatModal.content m with
                     | ChatModal.user, Str t => [t]
                     | _, _ => []
                     end) msgs.

(** Reading a transcript turn by turn: [Some false] between two turns,
    [Some true] after a question that has no reply yet, [None] as soon as
    a reply comes without a question or a question before the reply to
    the one before. *)
Definition turn (st : option bool) (r : ChatModal.role) : option bool :=
  match st, r with
  | Some false, ChatModal.user => Some true
  | Some true, ChatModal.assistant => Some false
  | Some true, ChatModal.system => Some false
  | _, _ => None
  end.

Definition transcript (roles : list ChatModal.role) : option bool :=
  fold_left turn roles (Some false).

(** What holds of a mounted chat after every event: before the paper is
    ready nothing has been asked; afterwards the conversation is a first
    message that is not a question followed by a transcript of turns, the
    requests sent are the preparation and one request per question shown,
    and at most one call is in flight. *)
Definition chat_inv (pr : ChatModal.props) (c : ChatModal.config) : Prop :=
  let s := ChatModal.ui c in
  ChatModal.sent c
  = ChatModal.sent (ChatModal.mount pr)
    ++ map (question_request pr) (questions_shown (ChatModal.messages s))
  /\ if ChatModal.paperReady s then
       ChatModal.processingPaper s = false
       /\ (exists first rest,
             ChatModal.messages s = first :: rest
             /\ ChatModal.m_role first <> ChatModal.user
             /\ transcript (map ChatModal.m_role rest) = Some (ChatModal.loading s))
       /\ (if ChatModal.loading s
           then exists k, ChatModal.in_flight c = [ChatModal.Asking k]
           else ChatModal.in_flight c = [])
     else
       ChatModal.loading s = false
       /\ (ChatModal.messages s = [] \/ ChatModal.messages s = [ChatModal.no_url_message])
       /\ (ChatModal.in_flight c = [ChatModal.Preparing] /\ ChatModal.processingPaper s = true
           \/ ChatModal.in_flight c = [] /\ ChatModal.processingPaper s = false).

(** What every request sent by [runCompare] looks like. *)
Definition compare_shaped (comparisonQuery : string) (auth : string) (r : request) : Prop :=
  req_authorization r = auth
  /\ match req_body r with
     | FetchPaperBody u _ info => truthy u = true /\ pi_url info = u
     | ComparePapersBody ids infos q =>
         ids = map ci_url infos
         /\ Forall (fun u => truthy u = true) ids
         /\ (2 <= length ids)%nat
         /\ q = comparisonQuery
     | _ => False
     end.

Definition no_filters : FilterPayload :=
  {| open_access := None; year_min := None; year_max := None;
     min_citations := None; venues := None; publication_types := None |}.

Definition fresh_page : SearchPage.world :=
  {| SearchPage.ui :=
       {| SearchPage.query := ""; SearchPage.papers := JArr [];
          SearchPage.loading := false; SearchPage.error := "";
          SearchPage.page := 1; SearchPage.meta := JNull;
          SearchPage.filtersState := Dashboard.createDefaultFilters;
          SearchPage.availableFilters :=
            {| SearchPage.af_venues := JArr [];
               SearchPage.af_publication_types := JArr [];
               SearchPage.af_year_min := JNull;
               SearchPage.af_year_max := JNull |} |};
     SearchPage.storage := ∅;
     SearchPage.log := [] |}.

(** A backend with one page of results for every search. *)
Definition results_env : Env :=
  {| API_URL := "http://localhost:8000";
     now_at_read := 1000; now_at_write := 1200; storage_has_room := true;
     search_backend := fun _ =>
       Reply true (Some (JObj [("results", JArr [JStr "paper 1"; JStr "paper 2"])]));
     fetch_paper_backend := fun _ => NetworkFailure;
     compare_backend := fun _ => NetworkFailure |}.

(** A search for the second page of "Graph Learning", typed in lower case
    between spaces and with filters. *)
Definition graph_args_again : SearchArgs :=
  {| query := Str ("  " ++ "graph learning" ++ " ")%string; page := Num 2;
     pageSize := Undefined; filters := Some filters_2020 |}.

Definition graph_request : request :=
  {| req_url := "http://localhost:8000/api/search";
     req_authorization := "Bearer t0";
     req_body := SearchBody (Str "Graph Learning") (Num 2) (Num 5) |}.

Definition nets_request : request :=
  {| req_url := "http://localhost:8000/api/search";
     req_authorization := "Bearer t0";
     req_body := SearchBody (Str "graph nets") (Num 1) (Num 5) |}.

Definition two_results : json :=
  JObj [("results", JArr [JStr "paper 1"; JStr "paper 2"])].

Definition busy_filters : Dashboard.FiltersState :=
  {| Dashboard.openAccess := true; Dashboard.yearMin := "2019";
     Dashboard.yearMax := ""; Dashboard.minCitations := "";
     Dashboard.fs_venues := ["NeurIPS"]; Dashboard.publicationTypes := [] |}.


Definition three_ticks : list Paper :=
  [paper_at "http://x/a.pdf" "A"; paper_at "http://x/b.pdf" "B";
   paper_at "http://x/a.pdf" "A"].

(* ===================================================================== *)
(** * Properties                                                          *)
(* ===================================================================== *)

(** ** The string and number helpers on small inputs *)

Example trim_example : trim "  deep  learning " = "deep  learning".
Proof. reflexivity. Qed.

Example toLowerCase_example : toLowerCase "Graph NETS 2" = "graph nets 2".
Proof. reflexivity. Qed.

Example to_string_example :
  (to_string (Num 2024), to_string (Num (-7)), to_string Null) = ("2024", "-7", "null").
Proof. reflexivity. Qed.

Example or_else_example :
  url_key (wrapped_paper_at "http://x/a.pdf" "A") = Str "http://x/a.pdf"
  /\ toggle_key (wrapped_paper_at "http://x/a.pdf" "A") = Undefined.
Proof. split; reflexivity. Qed.

Example cacheKey_example :
  cacheKey "  Graph Nets " (Num 1) (Num 5) = "search_graph nets_1_5".
Proof. reflexivity. Qed.

Example to_string_large :
  map (fun n => to_string (Num n))
    [9007199254740993; 2 ^ 64; - 10 ^ 21; 2 ^ 70; 2 ^ 1024]
  = ["9007199254740992"; "18446744073709552000"; "-1e+21";
     "1.1805916207174113e+21"; "Infinity"]%string.
Proof. vm_compute. reflexivity. Qed.

Example parseInt_example :
  map Dashboard.parseInt [" 2019"; "-3"; "20x"; ""; "x1"; "+"; "9007199254740993"]%string
  = [Some (Finite 2019); Some (Finite (-3)); Some (Finite 20); None; None; None;
     Some (Finite 9007199254740992)].
Proof. vm_compute. reflexivity. Qed.

Example buildFilterPayload_default :
  Dashboard.buildFilterPayload Dashboard.createDefaultFilters
  = {| open_access := None; year_min := None; year_max := None;
       min_citations := None; venues := None; publication_types := None |}.
Proof. reflexivity. Qed.

Example searchPapers_goes_to_backend :
  effects (searchPapers ok_env (graph_args None) (Str "t0") ∅)
  = [GetItem "search_graph learning_2_5";
     Fetch {| req_url := "http://localhost:8000/api/search";
              req_authorization := "Bearer t0";
              req_body := SearchBody (Str "Graph Learning") (Num 2) (Num 5) |};
     SetItem "search_graph learning_2_5" (Entry (JObj []) 0)].
Proof. reflexivity. Qed.

(** ** searchPapers *)

Lemma trim_start_all_white (s : string) :
  all_white s = true -> trim_start s = "".
Proof.
  induction s as [|c rest IH]; simpl; [reflexivity|].
  intros H. apply andb_prop in H as [Hc Hrest].
  rewrite Hc. auto.
Qed.

Lemma trim_all_white (s : string) : all_white s = true -> trim s = "".
Proof.
  intros H. unfold trim. rewrite (trim_start_all_white s H). reflexivity.
Qed.

Lemma trim_end_empty (s : string) : trim_end s = "" -> all_white s = true.
Proof.
  induction s as [|c rest IH]; simpl; [reflexivity|].
  destruct (trim_end rest) eqn:E.
  - destruct (is_white c); [intros _; simpl; auto | discriminate].
  - discriminate.
Qed.

Lemma trim_start_shape (s : string) :
  trim_start s = "" \/ exists c rest, trim_start s = String c rest /\ is_white c = false.
Proof.
  induction s as [|c rest IH]; simpl; [left; reflexivity|].
  destruct (is_white c) eqn:E; [exact IH|].
  right. exists c, rest. split; [reflexivity | exact E].
Qed.

Lemma trim_empty_all_white (s : string) : trim s = "" -> all_white s = true.
Proof.
  unfold trim. intros H.
  destruct (trim_start_shape s) as [E | (c & rest & E & Hc)].
  - clear H. induction s as [|d r IH]; simpl in *; [reflexivity|].
    destruct (is_white d); [simpl; auto | discriminate].
  - rewrite E in H. apply trim_end_empty in H. simpl in H.
    rewrite Hc in H. discriminate.
Qed.

Lemma check_query_missing (q : value) :
  missing_query q -> check_query q = Rejected (Error "Query is required").
Proof.
  intros [-> | [-> | (s & -> & Hs)]]; try reflexivity.
  unfold check_query. rewrite (trim_all_white s Hs).
  destruct (truthy (Str s)); reflexivity.
Qed.

(** The guard refuses nothing else with that message: a text with a
    visible character goes through unchanged. *)
Lemma check_query_text (s : string) :
  all_white s = false -> check_query (Str s) = Resolved s.
Proof.
  intros Hs. unfold check_query.
  assert (Ht : trim s <> "").
  { intros E. apply trim_empty_all_white in E. congruence. }
  assert (Hne : s <> "") by (intros ->; discriminate).
  simpl. destruct (String.eqb_spec s ""); [contradiction|].
  destruct (String.eqb_spec (trim s) ""); [contradiction|]. reflexivity.
Qed.

(** C10.  When the query of a call of [searchPapers] is absent, empty or
    made of white space only, the call is rejected with the error
    "Query is required" in the part of the function that runs before its
    first [await]: the returned promise is rejected, no key of the cache
    has been read, no request has been sent, and the storage is as it was. *)
Theorem searchPapers_query_required
    (env : Env) (args : SearchArgs) (token : value) (st : gmap string stored) :
  missing_query (query args) ->
  searchPapers env args token st
  = {| settles := Rejected (Error "Query is required");
       storage_after := st;
       effects := [] |}.
Proof.
  intros H. unfold searchPapers. rewrite (check_query_missing _ H). reflexivity.
Qed.

Lemma searchPapers_query_required_witness :
  missing_query (query blank_args)
  /\ searchPapers quiet_env blank_args Null ∅
     = {| settles := Rejected (Error "Query is required");
          storage_after := ∅; effects := [] |}.
Proof.
  assert (H : missing_query (query blank_args)).
  { right; right. exists "  ". split; reflexivity. }
  split; [exact H | exact (searchPapers_query_required quiet_env blank_args Null ∅ H)].
Defined.

Lemma searchPapers_ignores_filters
    (env : Env) (a1 a2 : SearchArgs) (token : value) (st : gmap string stored) :
  query a1 = query a2 -> page a1 = page a2 -> pageSize a1 = pageSize a2 ->
  searchPapers env a1 token st = searchPapers env a2 token st.
Proof.
  intros Hq Hp Hs. unfold searchPapers. rewrite Hq, Hp, Hs. reflexivity.
Qed.

(** C9.  The outcome of [searchPapers] does not depend on the [filters]
    property of its argument: two calls with the same query, page and page
    size, made with the same token against the same storage, clock and
    backend, read the same cache key, send the same request (same body) and
    settle alike, whatever filters each was given.  In particular the
    search run by [fetchPapers] is the same for every state of the filter
    controls. *)
Theorem searchPapers_filters_dropped
    (env : Env) (a1 a2 : SearchArgs) (token : value) (st : gmap string stored) :
  query a1 = query a2 -> page a1 = page a2 -> pageSize a1 = pageSize a2 ->
  searchPapers env a1 token st = searchPapers env a2 token st
  /\ (forall q targetPage f1 f2,
        Dashboard.fetchPapers env q targetPage f1 token st
        = Dashboard.fetchPapers env q targetPage f2 token st).
Proof.
  intros Hq Hp Hs. split.
  - apply searchPapers_ignores_filters; assumption.
  - intros q targetPage f1 f2. unfold Dashboard.fetchPapers.
    rewrite (searchPapers_ignores_filters env
               (Dashboard.fetchPapers_args q targetPage f1)
               (Dashboard.fetchPapers_args q targetPage f2) token st);
      reflexivity.
Qed.

(** How a search that resolves left the storage: untouched after a hit,
    with the new entry (room permitting) after a visit to the backend. *)
Lemma searchPapers_resolved
    (env : Env) (a : SearchArgs) (token : value) (st : gmap string stored) (data : json) :
  settles (searchPapers env a token st) = Resolved data ->
  exists q,
    check_query (query a) = Resolved q
    /\ let key := cacheKey q (with_default (Num 1) (page a))
                    (with_default (Num 5) (pageSize a)) in
       (getCachedData (now_at_read env) st key = data
        /\ storage_after (searchPapers env a token st) = st)
       \/ storage_after (searchPapers env a token st)
          = setCachedData (storage_has_room env) (now_at_write env) key data st.
Proof.
  unfold searchPapers.
  destruct (check_query (query a)) as [q|e]; [|discriminate].
  intros Hres. exists q. split; [reflexivity|]. cbv zeta. revert Hres.
  destruct (json_truthy (getCachedData _ st _)); cbn [settles storage_after].
  - intros [= Hd]. left. auto.
  - destruct (read_reply _ _) as [d|e]; cbn [settles storage_after]; [|discriminate].
    intros [= ->]. right. reflexivity.
Qed.

(** A second search with the same query, page and page size is served
    from the entry the first one left in the cache, whatever its filters:
    the backend is not even asked. *)
Lemma searchPapers_served_from_cache
    (env : Env) (a1 a2 : SearchArgs) (token : value) (st : gmap string stored) (data : json) :
  query a1 = query a2 -> page a1 = page a2 -> pageSize a1 = pageSize a2 ->
  settles (searchPapers env a1 token st) = Resolved data ->
  json_truthy data = true ->
  storage_has_room env = true ->
  now_at_read env - now_at_write env < 3600000 ->
  let first := searchPapers env a1 token st in
  let second := searchPapers env a2 token (storage_after first) in
  settles second = Resolved data
  /\ storage_after second = storage_after first
  /\ (forall r, ~ In (Fetch r) (effects second)).
Proof.
  intros Hq Hp Hs Hres Hdata Hroom Hfresh first second.
  destruct (searchPapers_resolved env a1 token st data Hres) as (q & Hc & Hst).
  cbv zeta in Hst. fold first in Hst.
  assert (Hget : getCachedData (now_at_read env) (storage_after first)
                   (cacheKey q (with_default (Num 1) (page a1))
                      (with_default (Num 5) (pageSize a1))) = data).
  { destruct Hst as [[Hg ->] | ->]; [exact Hg|].
    unfold setCachedData, getCachedData. rewrite Hroom, lookup_insert_eq.
    destruct (Z.ltb_spec (now_at_read env - now_at_write env) 3600000);
      [reflexivity | lia]. }
  unfold second. rewrite (searchPapers_ignores_filters env a2 a1 token _) by auto.
  unfold searchPapers. rewrite Hc, Hget, Hdata. cbn.
  split; [reflexivity|]. split; [reflexivity|]. intros r [H|[]]. discriminate H.
Qed.

(** ** The chat component *)

Section Chat.
Import ChatModal.
Variable pr : props.

Lemma take_call_last (x : call) (l : list call) :
  exists rest, take_call x (l ++ [x]) = Some rest.
Proof.
  induction l as [|y l IH]; simpl.
  - rewrite bool_decide_eq_true_2 by reflexivity. eauto.
  - destruct (bool_decide (x = y)); [eauto|].
    destruct IH as [rest ->]. eauto.
Qed.

Lemma take_call_keeps (x y : call) (l rest : list call) :
  take_call x l = Some rest -> In y rest -> In y l.
Proof.
  revert rest. induction l as [|z l IH]; simpl; intros rest H Hy; [discriminate|].
  destruct (bool_decide (x = z)).
  - injection H as <-. right. exact Hy.
  - destruct (take_call x l) as [rest'|]; [|discriminate].
    injection H as <-. destruct Hy as [->|Hy]; [left; reflexivity|].
    right. eapply IH; [reflexivity | exact Hy].
Qed.

Lemma run_app (c : config) (es1 es2 : list event) :
  run pr c (es1 ++ es2) = run pr (run pr c es1) es2.
Proof. unfold run. apply fold_left_app. Qed.

Lemma run_snoc (c : config) (es : list event) (e : event) :
  run pr c (es ++ [e]) = step pr (run pr c es) e.
Proof. rewrite run_app. reflexivity. Qed.

(** An induction principle for the configurations a mounted component
    goes through. *)
Lemma reachable_ind (P : config -> Prop) :
  P (mount pr) ->
  (forall c e, P c -> P (step pr c e)) ->
  forall events, P (run pr (mount pr) events).
Proof.
  intros Hinit Hstep events.
  induction events as [|e events IH] using rev_ind; [exact Hinit|].
  rewrite run_snoc. apply Hstep, IH.
Qed.

Lemma waiting_inv_mount : waiting_inv (mount pr).
Proof.
  unfold waiting_inv, mount.
  destruct (negb (truthy (url_key (the_paper pr)))); simpl.
  - split; [right; reflexivity | intros r []].
  - split; [left; reflexivity|]. intros r [<-|[]]. reflexivity.
Qed.

Lemma waiting_inv_step (c : config) (e : event) :
  waiting_inv c -> waiting_inv (step pr c e).
Proof.
  unfold waiting_inv. intros H.
  destruct e as [text | | template | r | k r]; simpl.
  - exact H.
  - unfold handleSendMessage, send_blocked.
    destruct (paperReady (ui c)) eqn:Hr.
    + destruct (negb (truthy (Str (trim (input (ui c))))) || loading (ui c) || negb true);
        simpl; rewrite ?Hr; [exact H|].
      intros Hin. apply in_app_or in Hin as [Hin|[Hin|[]]]; [auto | discriminate].
    + rewrite orb_true_r. rewrite Hr. exact H.
  - unfold quickAsk, quick_blocked.
    destruct (paperReady (ui c)) eqn:Hr.
    + destruct (loading (ui c) || negb true); simpl; rewrite ?Hr; [exact H|].
      intros Hin. apply in_app_or in Hin as [Hin|[Hin|[]]]; [auto | discriminate].
    + rewrite orb_true_r. rewrite Hr. exact H.
  - destruct (paperReady (ui c)) eqn:Hr.
    + destruct (take_call Preparing (in_flight c)) as [rest|] eqn:Ht; simpl.
      * exfalso. apply H. clear - Ht.
        revert rest Ht. induction (in_flight c) as [|y l IH]; simpl; intros rest Ht;
          [discriminate|].
        destruct (bool_decide_reflect (Preparing = y)); [left; congruence|].
        destruct (take_call Preparing l); [|discriminate]. right. eapply IH. reflexivity.
      * rewrite Hr. exact H.
    + destruct H as [[Hf|Hf] Hs]; rewrite Hf; simpl.
      * destruct r; simpl; intros [].
      * rewrite Hr. split; [right; exact Hf | exact Hs].
  - destruct (take_call (Asking k) (in_flight c)) as [rest|] eqn:Ht; simpl.
    + destruct (paperReady (ui c)) eqn:Hr.
      * intros Hin. apply H. eapply take_call_keeps; eassumption.
      * destruct H as [[Hf|Hf] Hs]; rewrite Hf in Ht; simpl in Ht; discriminate.
    + exact H.
Qed.

Lemma waiting_inv_reachable (events : list event) :
  waiting_inv (run pr (mount pr) events).
Proof.
  apply reachable_ind; [apply waiting_inv_mount|].
  intros c e H. apply waiting_inv_step, H.
Qed.

(** A step that sends something is an unblocked question, and the paper
    is ready when it leaves. *)
Lemma question_leaves_only_when_ready (c : config) (e : event) :
  sent (step pr c e) <> sent c ->
  paperReady (ui c) = true
  /\ exists question, sent (step pr c e) = sent c ++ [question_request pr question].
Proof.
  destruct e as [text | | template | r | k r]; simpl; intros Hne.
  - contradiction.
  - unfold handleSendMessage, send_blocked in *.
    destruct (paperReady (ui c)); [|rewrite orb_true_r in Hne; contradiction].
    split; [reflexivity|].
    destruct (negb (truthy (Str (trim (input (ui c))))) || loading (ui c) || negb true);
      [contradiction|]. eexists. reflexivity.
  - unfold quickAsk, quick_blocked in *.
    destruct (paperReady (ui c)); [|rewrite orb_true_r in Hne; contradiction].
    split; [reflexivity|].
    destruct (loading (ui c) || negb true); [contradiction|]. eexists. reflexivity.
  - destruct (take_call Preparing (in_flight c)); simpl in Hne; contradiction.
  - destruct (take_call (Asking k) (in_flight c)); simpl in Hne; contradiction.
Qed.




Lemma trim_visible (text : string) :
  all_white text = false -> truthy (Str (trim text)) = true.
Proof.
  intros H. simpl. destruct (String.eqb_spec (trim text) ""); [|reflexivity].
  apply trim_empty_all_white in e. congruence.
Qed.

(** One turn: the question is asked and its call settles. *)
Lemma ask_turn (c : config) (k : ask_kind) (text : string) (r : settled AskResponse) :
  paperReady (ui c) = true -> loading (ui c) = false -> askable k text ->
  exists rest,
    run pr c (ask_events k text ++ [AskSettles k r])
    = {| ui := {| messages := messages (ui c)
                              ++ [plain user (asked k text); answer_message k r];
                  input := "";
                  loading := false;
                  paperReady := true;
                  processingPaper := processingPaper (ui c);
                  sourceType := sourceType (ui c) |};
         in_flight := rest;
         sent := sent c ++ [question_request pr (asked k text)] |}.
Proof.
  intros Hr Hl Hk.
  destruct (take_call_last (Asking k) (in_flight c)) as [rest Hrest].
  exists rest. destruct k; simpl in *.
  - unfold handleSendMessage, send_blocked. simpl.
    change (negb (String.eqb (trim text) "")) with (truthy (Str (trim text))).
    rewrite (trim_visible text Hk), Hl, Hr. simpl.
    rewrite Hrest. unfold ask_resume. simpl. rewrite Hr, <- app_assoc. reflexivity.
  - unfold quickAsk, quick_blocked. rewrite Hl, Hr. simpl.
    rewrite Hrest. unfold ask_resume. simpl. rewrite Hr, <- app_assoc. reflexivity.
Qed.

(** C5.  A question whose call fails leaves exactly one more pair of
    messages: the question, and a system message with the text "Failed to
    get answer. Please try again." (from the form) or "Failed to get
    answer. Try again." (from a suggestion button).  [loading] is back to
    false, [paperReady] is still true and the source type is as it was.
    The request of the failed question went to [/api/ask-question] with the
    paper's URL key, the question and the paper's data; a question asked
    next on the same paper is sent in the same way, and when its call
    resolves the assistant's message carries the answer of the reply, with
    its source type, citation (from the form only) and disclaimer. *)
Theorem generation_failure_is_per_turn
    (c : config) (k1 k2 : ask_kind) (q1 q2 : string) (e : error) (response : AskResponse) :
  paperReady (ui c) = true -> loading (ui c) = false ->
  askable k1 q1 -> askable k2 q2 ->
  let failed := run pr c (ask_events k1 q1 ++ [AskSettles k1 (Rejected e)]) in
  let answered := run pr failed (ask_events k2 q2 ++ [AskSettles k2 (Resolved response)]) in
  let p := the_paper pr in
  let said (r : role) (text : string) :=
    {| m_role := r; content := Str text; m_sourceType := Undefined;
       citation := Undefined; disclaimer := Undefined |} in
  let failure_notice :=
    match k1 with
    | FromForm => said system "Failed to get answer. Please try again."
    | FromButton => said system "Failed to get answer. Try again."
    end in
  let reply :=
    {| m_role := assistant;
       content :=
         match k2 with
         | FromForm => ar_answer response
         | FromButton =>
             if truthy (ar_answer response) then ar_answer response else Str "No answer."
         end;
       m_sourceType := ar_source_type response;
       citation := match k2 with FromForm => ar_citation response | FromButton => Undefined end;
       disclaimer := ar_disclaimer response |} in
  let question (text : string) :=
    {| req_url := (api_url pr ++ "/api/ask-question")%string;
       req_authorization := ("Bearer " ++ to_string (token pr))%string;
       req_body :=
         AskQuestionBody (url_key p) text
           {| pi_title := title p; pi_authors := authors p; pi_year := year p;
              pi_abstract := abstract_ p; pi_url := url_key p;
              pi_pdf_url := or_else (pdf_url p) (url_key p);
              pi_externalIds :=
                match external_ids p with
                | Some ids => Some ids
                | None => match externalIds p with Some ids => Some ids | None => Some [] end
                end |} |} in
  messages (ui failed) = messages (ui c) ++ [said user (asked k1 q1); failure_notice]
  /\ render_message failure_notice = [Paragraph (content failure_notice)]
  /\ paperReady (ui failed) = true
  /\ loading (ui failed) = false
  /\ sourceType (ui failed) = sourceType (ui c)
  /\ sent failed = sent c ++ [question (asked k1 q1)]
  /\ sent answered = sent c ++ [question (asked k1 q1); question (asked k2 q2)]
  /\ messages (ui answered)
     = messages (ui c)
       ++ [said user (asked k1 q1); failure_notice; said user (asked k2 q2); reply]
  /\ paperReady (ui answered) = true
  /\ loading (ui answered) = false.
Proof.
  intros Hr Hl Hk1 Hk2 failed answered p said failure_notice reply question.
  destruct (ask_turn c k1 q1 (Rejected e) Hr Hl Hk1) as [rest1 E1].
  fold failed in E1.
  assert (Hr' : paperReady (ui failed) = true) by (rewrite E1; reflexivity).
  assert (Hl' : loading (ui failed) = false) by (rewrite E1; reflexivity).
  destruct (ask_turn failed k2 q2 (Resolved response) Hr' Hl' Hk2) as [rest2 E2].
  fold answered in E2.
  rewrite E2. rewrite E1. cbn [ui messages sent paperReady loading sourceType].
  rewrite <- !app_assoc. cbn [app].
  unfold failure_notice, reply, question, said.
  repeat split; destruct k1, k2; reflexivity.
Qed.

(** Once the preparation is over, no later event changes [paperReady] or
    [sourceType]. *)
Lemma prepared_stays (c : config) (events : list event) :
  ~ In Preparing (in_flight c) ->
  paperReady (ui (run pr c events)) = paperReady (ui c)
  /\ sourceType (ui (run pr c events)) = sourceType (ui c)
  /\ ~ In Preparing (in_flight (run pr c events)).
Proof.
  revert c. induction events as [|e events IH]; intros c Hc; [auto|].
  change (run pr c (e :: events)) with (run pr (step pr c e) events).
  assert (Hstep : paperReady (ui (step pr c e)) = paperReady (ui c)
                  /\ sourceType (ui (step pr c e)) = sourceType (ui c)
                  /\ ~ In Preparing (in_flight (step pr c e))).
  { destruct e as [text | | template | r | k r]; simpl.
    - auto.
    - unfold handleSendMessage. destruct (send_blocked (ui c)); simpl; [auto|].
      repeat split; try reflexivity.
      intros Hin. apply in_app_or in Hin as [Hin|[Hin|[]]]; [auto | discriminate].
    - unfold quickAsk. destruct (quick_blocked (ui c)); simpl; [auto|].
      repeat split; try reflexivity.
      intros Hin. apply in_app_or in Hin as [Hin|[Hin|[]]]; [auto | discriminate].
    - destruct (take_call Preparing (in_flight c)) as [rest|] eqn:Ht; [|auto].
      exfalso. apply Hc. clear - Ht.
      revert rest Ht. induction (in_flight c) as [|y l IHl]; simpl; intros rest Ht;
        [discriminate|].
      destruct (bool_decide_reflect (Preparing = y)); [left; congruence|].
      destruct (take_call Preparing l); [|discriminate]. right. eapply IHl. reflexivity.
    - destruct (take_call (Asking k) (in_flight c)) as [rest|] eqn:Ht; simpl; [|auto].
      repeat split; try reflexivity.
      intros Hin. apply Hc. eapply take_call_keeps; eassumption. }
  destruct Hstep as (H1 & H2 & H3).
  destruct (IH _ H3) as (I1 & I2 & I3).
  rewrite I1, I2, H1, H2. auto.
Qed.

(** No event adds a preparation request to the ones sent. *)
Lemma prepares_sent_stay (c : config) (events : list event) :
  filter (fun q => is_prepare q = true) (sent (run pr c events))
  = filter (fun q => is_prepare q = true) (sent c).
Proof.
  revert c. induction events as [|e events IH]; intros c; [reflexivity|].
  change (run pr c (e :: events)) with (run pr (step pr c e) events). rewrite IH.
  destruct e as [text | | template | r | k r]; simpl; try reflexivity.
  - unfold handleSendMessage. destruct (send_blocked (ui c)); [reflexivity|].
    simpl. rewrite filter_app. simpl. apply app_nil_r.
  - unfold quickAsk. destruct (quick_blocked (ui c)); [reflexivity|].
    simpl. rewrite filter_app. simpl. apply app_nil_r.
  - destruct (take_call Preparing (in_flight c)); reflexivity.
  - destruct (take_call (Asking k) (in_flight c)); reflexivity.
Qed.

(** Once the preparation is over the conversation only grows. *)
Lemma conversation_grows (c : config) (events : list event) :
  ~ In Preparing (in_flight c) ->
  exists more, messages (ui (run pr c events)) = messages (ui c) ++ more.
Proof.
  revert c. induction events as [|e events IH]; intros c Hc.
  - exists []. rewrite app_nil_r. reflexivity.
  - change (run pr c (e :: events)) with (run pr (step pr c e) events).
    destruct (prepared_stays c [e] Hc) as (_ & _ & Hstep).
    change (run pr c [e]) with (step pr c e) in Hstep.
    destruct (IH _ Hstep) as [more ->].
    assert (H : exists one, messages (ui (step pr c e)) = messages (ui c) ++ one).
    { destruct e as [text | | template | r | k r]; simpl.
      - exists []. rewrite app_nil_r. reflexivity.
      - unfold handleSendMessage. destruct (send_blocked (ui c)); simpl; [|eauto].
        exists []. rewrite app_nil_r. reflexivity.
      - unfold quickAsk. destruct (quick_blocked (ui c)); simpl; [|eauto].
        exists []. rewrite app_nil_r. reflexivity.
      - destruct (take_call Preparing (in_flight c)) as [rest|] eqn:Ht.
        + exfalso. apply Hc. clear - Ht.
          revert rest Ht. induction (in_flight c) as [|y l IHl]; simpl; intros rest Ht;
            [discriminate|].
          destruct (bool_decide_reflect (Preparing = y)); [left; congruence|].
          destruct (take_call Preparing l); [|discriminate]. right. eapply IHl. reflexivity.
        + exists []. rewrite app_nil_r. reflexivity.
      - destruct (take_call (Asking k) (in_flight c)); simpl; [eauto|].
        exists []. rewrite app_nil_r. reflexivity. }
    destruct H as [one ->]. exists (one ++ more). rewrite app_assoc. reflexivity.
Qed.

(** C8.  When the preparation call of a paper with a usable URL is
    rejected, the chat shows, in place of the greeting, one system message
    with the text "Failed to process the paper. The PDF might not be
    accessible or there was a processing error. You can still try asking
    questions."; it is displayed as a paragraph and stays the first message
    of the conversation whatever happens next.  The spinner stops; no
    source type is recorded, then or at any later event, so the paper is
    never presented as prepared from a source; the preparation is not tried
    again.  [paperReady] is set under that notice: the form is opened for
    questions. *)
Theorem failed_preparation_is_reported (e : error) (events : list event) :
  truthy (url_key (the_paper pr)) = true ->
  let c := step pr (mount pr) (PrepareSettles (Rejected e)) in
  let p := the_paper pr in
  let notice :=
    {| m_role := system;
       content := Str "Failed to process the paper. The PDF might not be accessible or there was a processing error. You can still try asking questions.";
       m_sourceType := Undefined; citation := Undefined; disclaimer := Undefined |} in
  let preparation :=
    {| req_url := (api_url pr ++ "/api/fetch-paper")%string;
       req_authorization := ("Bearer " ++ to_string (token pr))%string;
       req_body :=
         FetchPaperBody (url_key p) (title p)
           {| pi_title := title p; pi_authors := authors p; pi_year := year p;
              pi_abstract := abstract_ p; pi_url := url_key p;
              pi_pdf_url := or_else (pdf_url p) (url_key p);
              pi_externalIds :=
                match external_ids p with
                | Some ids => Some ids
                | None => match externalIds p with Some ids => Some ids | None => Some [] end
                end |} |} in
  messages (ui c) = [notice]
  /\ render_message notice = [Paragraph (content notice)]
  /\ (exists more, messages (ui (run pr c events)) = notice :: more)
  /\ processingPaper (ui c) = false
  /\ sourceType (ui c) = Null
  /\ sourceType (ui (run pr c events)) = Null
  /\ paperReady (ui c) = true
  /\ in_flight c = []
  /\ sent c = [preparation]
  /\ length (filter (fun q => is_prepare q = true) (sent (run pr c events))) = 1%nat.
Proof.
  intros Hurl c p notice preparation.
  assert (E : c = {| ui := initializePaper_resume pr (Rejected e) initial;
                     in_flight := []; sent := [preparation] |}).
  { unfold c, mount. rewrite Hurl. simpl. reflexivity. }
  assert (Hc : ~ In Preparing (in_flight c)) by (rewrite E; simpl; tauto).
  destruct (prepared_stays c events Hc) as (_ & H & _).
  destruct (conversation_grows c events Hc) as [more Hm].
  split; [rewrite E; reflexivity|]. split; [reflexivity|].
  split; [exists more; rewrite Hm, E; reflexivity|].
  split; [rewrite E; reflexivity|]. split; [rewrite E; reflexivity|].
  split; [rewrite H, E; reflexivity|].
  split; [rewrite E; reflexivity|]. split; [rewrite E; reflexivity|].
  split; [rewrite E; reflexivity|].
  rewrite prepares_sent_stay, E. reflexivity.
Qed.


End Chat.

(** ** Source types *)


(** ** The engine *)

Section Engine.
Import Core.
Variable caps : Capabilities.

Lemma ensure_index_stable (pid : string) (rec : SourceRecord) (e e' : Engine)
    (h : IndexHandle) (ps : gmap string IndexHandle) :
  ensure_index caps pid rec e = (Some h, e') ->
  ensure_index caps pid rec
    {| indices := indices e'; papers := ps; build_count := build_count e' |}
  = (Some h, {| indices := indices e'; papers := ps; build_count := build_count e' |}).
Proof.
  unfold ensure_index.
  destruct (source_type rec), (raw_text rec) as [t|];
    try (intros [= <- <-]; reflexivity).
  all: cbn [indices].
  all: destruct (indices e !! pid) as [ix|] eqn:Hix.
  all: try destruct (String.eqb (ix_text ix) t) eqn:Ht.
  all: try (intros [= <- <-]; cbn [indices]; rewrite Hix, ?Ht; reflexivity).
  all: destruct (chunk caps t pid) as [|c0 cs] eqn:Hc.
  all: try (intros [= <- <-]; cbn [indices]; rewrite Hix, ?Ht; reflexivity).
  all: destruct (embed caps (map text (c0 :: cs))) as [vs|] eqn:He; [|discriminate].
  all: intros [= <- <-]; cbn [indices build_count].
  all: rewrite lookup_insert_eq; cbn [ix_text]; rewrite String.eqb_refl; reflexivity.
Qed.

Lemma ensure_index_builds_at_most_one (pid : string) (rec : SourceRecord) (e : Engine) :
  (build_count (snd (ensure_index caps pid rec e)) <= S (build_count e))%nat.
Proof.
  unfold ensure_index.
  destruct (source_type rec), (raw_text rec) as [t|]; cbn [snd]; try lia.
  all: destruct (indices e !! pid) as [ix|]; try destruct (String.eqb (ix_text ix) t).
  all: cbn [snd]; try lia.
  all: destruct (chunk caps t pid) as [|c0 cs]; cbn [snd]; try lia.
  all: destruct (embed caps (map text (c0 :: cs))); cbn [snd build_count]; lia.
Qed.

(** C7.  [prepare] is idempotent: a second call with the same reference,
    on the engine the first call left, returns what the first returned
    (same source type and readiness, or the same failure) and leaves the
    engine as it is: no index is built or replaced, and the count of
    indices built does not move.  One call builds at most one index. *)
Theorem prepare_idempotent (reference : PaperReference) (e : Engine) :
  let first := prepare caps reference e in
  let second := prepare caps reference (snd first) in
  second = first
  /\ build_count (snd second) = build_count (snd first)
  /\ indices (snd second) = indices (snd first)
  /\ (build_count (snd first) <= S (build_count e))%nat.
Proof.
  cbv zeta.
  assert (H : prepare caps reference (snd (prepare caps reference e))
              = prepare caps reference e).
  { unfold prepare.
    destruct (ensure_index caps (paper_id (resolve caps reference))
                (resolve caps reference) e) as [[h|] e'] eqn:E; cbn [snd].
    - rewrite (ensure_index_stable _ _ _ _ _ _ E). cbn [indices papers build_count].
      rewrite insert_insert_eq. reflexivity.
    - rewrite E. reflexivity. }
  rewrite H. repeat split.
  unfold prepare.
  destruct (ensure_index caps (paper_id (resolve caps reference))
              (resolve caps reference) e) as [[h|] e'] eqn:E; cbn [snd build_count];
    [|lia].
  pose proof (ensure_index_builds_at_most_one
                (paper_id (resolve caps reference)) (resolve caps reference) e) as Hb.
  rewrite E in Hb. exact Hb.
Qed.

Lemma resolve_metadata_only (reference : PaperReference) :
  primary_source caps (source_url reference) = None ->
  secondary_source caps (source_url reference) = None ->
  ref_abstract reference <> "" ->
  resolve caps reference
  = {| paper_id := paper_id_of caps (source_url reference);
       source_type := metadata_only;
       raw_text := Some (ref_title reference ++ ref_abstract reference)%string |}.
Proof.
  intros H1 H2 Ha. unfold resolve. rewrite H1, H2.
  destruct (String.eqb_spec (ref_abstract reference) ""); [contradiction|].
  destruct (String.eqb (source_url reference) ""); reflexivity.
Qed.

(** C3.  A reference whose full-text sources all fail and whose abstract
    is not empty is prepared as [metadata_only] and is ready (degraded).
    From then on every question about it either fails in generation or is
    answered with the disclaimer set and no citation; the answer is
    generated from the title and the abstract.  On the client, the prepare
    result takes the metadata branch, and the message either handler builds
    from such an answer carries no citation and is shown with its
    disclaimer box. *)
Theorem metadata_only_answers (reference : PaperReference) (e : Engine) (question : string) :
  primary_source caps (source_url reference) = None ->
  secondary_source caps (source_url reference) = None ->
  ref_abstract reference <> "" ->
  let pid := paper_id_of caps (source_url reference) in
  let prepared := prepare caps reference e in
  fst prepared = PrepareOk metadata_only true
  /\ source_case (wire_source_type metadata_only) = metadata_only
  /\ answer caps (snd prepared) pid question
     = match generate caps question [(ref_title reference ++ ref_abstract reference)%string] with
       | Some t => AnswerOk {| answer_text := t; citation := None;
                               disclaimer := Some "limited data available" |}
       | None => GenerationFailed
       end
  /\ (forall a k,
        answer caps (snd prepared) pid question = AnswerOk a ->
        let m := ChatModal.answer_message k (Resolved (wire_answer metadata_only a)) in
        disclaimer a = Some "limited data available"
        /\ citation a = None
        /\ ChatModal.citation m = Undefined
        /\ ChatModal.render_message m
           = [ChatModal.AssistantHeader; ChatModal.Paragraph (ChatModal.content m);
              ChatModal.DisclaimerBox (Str "limited data available")]).
Proof.
  intros H1 H2 Ha pid prepared.
  assert (Hp : prepared
               = (PrepareOk metadata_only true,
                  {| indices := indices e;
                     papers := <[pid := Degenerate
                                   (Some (ref_title reference ++ ref_abstract reference)%string)]>
                                 (papers e);
                     build_count := build_count e |})).
  { unfold prepared, prepare. rewrite (resolve_metadata_only _ H1 H2 Ha). reflexivity. }
  assert (Hans : answer caps (snd prepared) pid question
     = match generate caps question [(ref_title reference ++ ref_abstract reference)%string] with
       | Some t => AnswerOk {| answer_text := t; citation := None;
                               disclaimer := Some "limited data available" |}
       | None => GenerationFailed
       end).
  { rewrite Hp. unfold answer. cbn [snd papers]. rewrite lookup_insert_eq. reflexivity. }
  split; [rewrite Hp; reflexivity|].
  split; [reflexivity|].
  split; [exact Hans|].
  intros a k Hk. rewrite Hans in Hk.
  destruct (generate caps question _) as [t|]; [|discriminate].
  injection Hk as <-. destruct k; repeat split; reflexivity.
Qed.

End Engine.

(** ** Comparison *)

Section Compare.
Import Dashboard.
Variables (env : Env) (token : value) (comparisonQuery : string).

Lemma all_prepared_forallb (valid : list Paper) :
  all_prepared env token valid ->
  forallb is_resolved
    (map (fun r => fetchPaper (fetch_paper_backend env r))
         (map (prepare_request env token) valid)) = true.
Proof.
  unfold all_prepared. induction 1 as [|p l [r Hr] _ IH]; simpl; [reflexivity|].
  rewrite Hr, IH. reflexivity.
Qed.

Lemma forallb_all_prepared (valid : list Paper) :
  forallb is_resolved
    (map (fun r => fetchPaper (fetch_paper_backend env r))
         (map (prepare_request env token) valid)) = true ->
  all_prepared env token valid.
Proof.
  unfold all_prepared. induction valid as [|p l IH]; simpl; intros H; [constructor|].
  apply andb_prop in H as [Hp Hl]. constructor; [|apply IH, Hl].
  destruct (fetchPaper _) as [r|e]; [eauto | discriminate].
Qed.

(** C1, as the code has it.  [runCompare] counts the selected papers that
    have a URL key.  With fewer than two of them it returns at once: no
    request is sent and the state is left as it was, without any failure
    being raised or recorded.  With two or more it sends one preparation
    request per valid paper, in order, to [/api/fetch-paper].  When one of
    the preparations is rejected no comparison request is sent and the text
    "Comparison failed. Please try again." is stored.  When all of them
    resolve, one comparison request follows, to [/api/compare-papers] with
    the URL keys and the data of the valid papers: what its reply resolves
    with is stored as the result, and the same failure text when it is
    rejected.  The selection is never changed and [compareLoading] ends
    false. *)
Theorem runCompare_needs_two_valid (s : state) :
  let valid := filter (fun p => truthy (url_key p) = true) (selectedForCompare s) in
  let auth := ("Bearer " ++ to_string token)%string in
  let prepares :=
    map (fun p =>
           {| req_url := (API_URL env ++ "/api/fetch-paper")%string;
              req_authorization := auth;
              req_body :=
                FetchPaperBody (url_key p) (title p)
                  {| pi_title := title p; pi_authors := authors p; pi_year := year p;
                     pi_abstract := abstract_ p; pi_url := url_key p;
                     pi_pdf_url := Undefined; pi_externalIds := None |} |}) valid in
  let req :=
    {| req_url := (API_URL env ++ "/api/compare-papers")%string;
       req_authorization := auth;
       req_body :=
         ComparePapersBody (map url_key valid)
           (map (fun p => {| ci_title := title p; ci_authors := authors p;
                             ci_year := year p; ci_abstract := abstract_ p;
                             ci_url := url_key p |}) valid)
           comparisonQuery |} in
  let ended (result : CompareBody) :=
    {| selectedForCompare := selectedForCompare s;
       compareLoading := false;
       compareResult := result |} in
  let failure := Some {| cr_comparison := Str "Comparison failed. Please try again." |} in
  let out := runCompare env token comparisonQuery s in
  ((length valid < 2)%nat -> out = (s, []))
  /\ ((2 <= length valid)%nat ->
      (~ all_prepared env token valid -> out = (ended failure, prepares))
      /\ (all_prepared env token valid ->
          forall e, comparePapers (compare_backend env req) = Rejected e ->
          out = (ended failure, prepares ++ [req]))
      /\ (all_prepared env token valid ->
          forall result, comparePapers (compare_backend env req) = Resolved result ->
          out = (ended result, prepares ++ [req]))).
Proof.
  intros valid auth prepares req ended failure out.
  change (filter (fun p => truthy (url_key p) = true) (selectedForCompare s))
    with (valid_papers (selectedForCompare s)) in valid.
  change prepares with (map (prepare_request env token) valid).
  change req with (compare_request env token comparisonQuery valid).
  unfold out, runCompare. fold valid.
  destruct (Nat.ltb_spec (length valid) 2) as [Hlt|Hge].
  - split; [reflexivity | lia].
  - split; [lia|]. intros _.
    destruct (forallb is_resolved
                (map (fun r => fetchPaper (fetch_paper_backend env r))
                     (map (prepare_request env token) valid))) eqn:Hall.
    + apply forallb_all_prepared in Hall.
      split; [intros Hn; contradiction|].
      split; intros _ x Hx; rewrite Hx; reflexivity.
    + split; [reflexivity|].
      split; intros Hp; apply all_prepared_forallb in Hp; congruence.
Qed.

End Compare.

(** The selection made by ticking a paper listed under its own URL and
    then the same paper as it comes wrapped from the history holds one URL
    key twice, and [runCompare] goes ahead with it. *)
Lemma same_url_selected_twice :
  let a := paper_at "http://x/a.pdf" "A" in
  let b := wrapped_paper_at "http://x/a.pdf" "A" in
  let sel := Dashboard.toggleSelectForCompare b (Dashboard.toggleSelectForCompare a []) in
  sel = [a; b]
  /\ map url_key (Dashboard.valid_papers sel) = [Str "http://x/a.pdf"; Str "http://x/a.pdf"]
  /\ length (snd (Dashboard.runCompare ok_env (Str "t0") "methods" (selection sel))) = 3%nat.
Proof. vm_compute. auto. Qed.

(** ** One preparation per mounted chat *)

Lemma one_preparation_per_mount (pr : ChatModal.props) (events : list ChatModal.event) :
  (length (filter (fun r => is_prepare r = true)
             (ChatModal.sent (ChatModal.run pr (ChatModal.mount pr) events))) <= 1)%nat.
Proof.
  apply (reachable_ind pr
           (fun c => (length (filter (fun r => is_prepare r = true) (ChatModal.sent c)) <= 1)%nat)).
  - unfold ChatModal.mount.
    destruct (negb (truthy (url_key (ChatModal.the_paper pr)))); simpl; lia.
  - intros c e IH.
    destruct e as [text | | template | r | k r]; simpl; try exact IH.
    + unfold ChatModal.handleSendMessage.
      destruct (ChatModal.send_blocked (ChatModal.ui c)); [exact IH|].
      simpl. rewrite filter_app, length_app. simpl. lia.
    + unfold ChatModal.quickAsk.
      destruct (ChatModal.quick_blocked (ChatModal.ui c)); [exact IH|].
      simpl. rewrite filter_app, length_app. simpl. lia.
    + destruct (ChatModal.take_call ChatModal.Preparing (ChatModal.in_flight c)); exact IH.
    + destruct (ChatModal.take_call (ChatModal.Asking k) (ChatModal.in_flight c)); exact IH.
Qed.

(** ** Instances *)

Lemma searchPapers_filters_dropped_witness :
  filters (graph_args None) <> filters (graph_args (Some filters_2020))
  /\ searchPapers ok_env (graph_args None) (Str "t0") ∅
     = searchPapers ok_env (graph_args (Some filters_2020)) (Str "t0") ∅.
Proof.
  split; [discriminate|].
  exact (proj1 (searchPapers_filters_dropped ok_env (graph_args None)
                  (graph_args (Some filters_2020)) (Str "t0") ∅
                  eq_refl eq_refl eq_refl)).
Defined.




Lemma generation_failure_is_per_turn_witness :
  let p := paper_at "http://x/a.pdf" "A" in
  let failed :=
    ChatModal.run (chat_of p) (ready_chat p)
      (ask_events ChatModal.FromForm " What does the paper study? "
       ++ [ChatModal.AskSettles ChatModal.FromForm (Rejected (Error "Failed to get answer"))]) in
  let answered :=
    ChatModal.run (chat_of p) failed
      (ask_events ChatModal.FromButton "Summarize this paper in 5 bullet points."
       ++ [ChatModal.AskSettles ChatModal.FromButton (Resolved sample_response)]) in
  ChatModal.paperReady (ChatModal.ui (ready_chat p)) = true
  /\ ChatModal.paperReady (ChatModal.ui failed) = true
  /\ map ChatModal.content (skipn 1 (ChatModal.messages (ChatModal.ui failed)))
     = [Str "What does the paper study?"; Str "Failed to get answer. Please try again."]
  /\ map ChatModal.content (skipn 3 (ChatModal.messages (ChatModal.ui answered)))
     = [Str "Summarize this paper in 5 bullet points."; Str "It studies X."]
  /\ map req_url (ChatModal.sent answered)
     = ["http://localhost:8000/api/fetch-paper"; "http://localhost:8000/api/ask-question";
        "http://localhost:8000/api/ask-question"]%string.
Proof.
  intros p failed answered.
  pose proof (generation_failure_is_per_turn (chat_of p) (ready_chat p)
                ChatModal.FromForm ChatModal.FromButton
                " What does the paper study? " "Summarize this paper in 5 bullet points."
                (Error "Failed to get answer") sample_response
                eq_refl eq_refl eq_refl I)
    as (Hm & _ & Hr & _ & _ & _ & Hs & Hm' & _).
  fold failed in Hm, Hr, Hs, Hm'. fold answered in Hs, Hm'.
  split; [reflexivity|]. split; [exact Hr|].
  split; [rewrite Hm; reflexivity|].
  split; [rewrite Hm'; reflexivity|].
  rewrite Hs. reflexivity.
Defined.

Lemma failed_preparation_is_reported_witness :
  let pr := chat_of (paper_at "http://x/a.pdf" "A") in
  let c := ChatModal.step pr (ChatModal.mount pr) (ChatModal.PrepareSettles (Rejected TypeError)) in
  truthy (url_key (ChatModal.the_paper pr)) = true
  /\ map ChatModal.content (ChatModal.messages (ChatModal.ui c))
     = [Str "Failed to process the paper. The PDF might not be accessible or there was a processing error. You can still try asking questions."]
  /\ ChatModal.sourceType
       (ChatModal.ui (ChatModal.run pr c [ChatModal.Typed "q"; ChatModal.Submit])) = Null.
Proof.
  intros pr c.
  pose proof (failed_preparation_is_reported pr TypeError
                [ChatModal.Typed "q"; ChatModal.Submit] eq_refl)
    as (H1 & _ & _ & _ & _ & H6 & _).
  fold c in H1, H6.
  split; [reflexivity|]. split; [rewrite H1; reflexivity | exact H6].
Defined.



Lemma metadata_only_answers_witness :
  let question := "What does the paper study?" in
  let prepared := Core.prepare offline_caps paper_A empty_engine in
  Core.ref_abstract paper_A <> ""
  /\ fst prepared = Core.PrepareOk Core.metadata_only true
  /\ Core.answer offline_caps (snd prepared) "http://x/a.pdf" question
     = Core.AnswerOk {| Core.answer_text := "The paper: AStudies X.";
                        Core.citation := None;
                        Core.disclaimer := Some "limited data available" |}.
Proof.
  intros question prepared.
  assert (Ha : Core.ref_abstract paper_A <> "") by discriminate.
  pose proof (metadata_only_answers offline_caps paper_A empty_engine question
                eq_refl eq_refl Ha) as (H1 & _ & H3 & _).
  split; [exact Ha|]. split; [exact H1 | exact H3].
Defined.

Lemma runCompare_needs_two_valid_witness :
  (length (Dashboard.valid_papers (Dashboard.selectedForCompare one_selected)) < 2)%nat
  /\ Dashboard.runCompare ok_env (Str "t0") "methods" one_selected = (one_selected, [])
  /\ (2 <= length (Dashboard.valid_papers (Dashboard.selectedForCompare two_selected)))%nat
  /\ all_prepared ok_env (Str "t0")
       (Dashboard.valid_papers (Dashboard.selectedForCompare two_selected))
  /\ Dashboard.compareResult (fst (Dashboard.runCompare ok_env (Str "t0") "methods" two_selected))
     = Some {| cr_comparison := Str "Both study X." |}
  /\ ~ all_prepared quiet_env (Str "t0")
         (Dashboard.valid_papers (Dashboard.selectedForCompare two_selected))
  /\ map req_url (snd (Dashboard.runCompare quiet_env (Str "t0") "methods" two_selected))
     = ["http://localhost:8000/api/fetch-paper"; "http://localhost:8000/api/fetch-paper"]%string.
Proof.
  assert (H1 : (length (Dashboard.valid_papers
                          (Dashboard.selectedForCompare one_selected)) < 2)%nat)
    by (vm_compute; lia).
  assert (H2 : (2 <= length (Dashboard.valid_papers
                               (Dashboard.selectedForCompare two_selected)))%nat)
    by (vm_compute; lia).
  assert (Hp : all_prepared ok_env (Str "t0")
                 (Dashboard.valid_papers (Dashboard.selectedForCompare two_selected)))
    by (repeat constructor; eexists; reflexivity).
  assert (Hn : ~ all_prepared quiet_env (Str "t0")
                   (Dashboard.valid_papers (Dashboard.selectedForCompare two_selected))).
  { intros H. apply Forall_inv in H as [r Hr]. discriminate Hr. }
  split; [exact H1|].
  split; [exact (proj1 (runCompare_needs_two_valid ok_env (Str "t0") "methods" one_selected) H1)|].
  split; [exact H2|]. split; [exact Hp|].
  destruct (proj2 (runCompare_needs_two_valid ok_env (Str "t0") "methods" two_selected) H2)
    as (_ & _ & Hok).
  destruct (proj2 (runCompare_needs_two_valid quiet_env (Str "t0") "methods" two_selected) H2)
    as (Hfail & _).
  split; [rewrite (Hok Hp (Some {| cr_comparison := Str "Both study X." |}) eq_refl);
          reflexivity|].
  split; [exact Hn|].
  rewrite (Hfail Hn). reflexivity.
Defined.

(** C1 fails as stated.  With one paper selected [runCompare] returns
    without raising or recording any failure; with two valid papers and a
    backend that cannot be reached it ends on the failure text, not on a
    synthesis; and a selection holding one URL key twice is compared. *)
Lemma runCompare_no_failure_no_synthesis :
  (Dashboard.runCompare ok_env (Str "t0") "methods" one_selected = (one_selected, [])
   /\ Dashboard.compareResult one_selected = None)
  /\ (length (Dashboard.valid_papers (Dashboard.selectedForCompare two_selected)) = 2%nat
      /\ Dashboard.compareResult
           (fst (Dashboard.runCompare quiet_env (Str "t0") "methods" two_selected))
         = Some Dashboard.comparison_failed)
  /\ (let sel := Dashboard.toggleSelectForCompare (wrapped_paper_at "http://x/a.pdf" "A")
                   (Dashboard.toggleSelectForCompare (paper_at "http://x/a.pdf" "A") []) in
      map url_key (Dashboard.valid_papers sel)
      = [Str "http://x/a.pdf"; Str "http://x/a.pdf"]
      /\ Dashboard.compareResult
           (fst (Dashboard.runCompare ok_env (Str "t0") "methods" (selection sel)))
         = Some {| cr_comparison := Str "Both study X." |}).
Proof. vm_compute. repeat split. Qed.


(* ===================================================================== *)
(** * Further properties                                                  *)
(* ===================================================================== *)

(** ** Characters and strings *)

Lemma lower_char_white (c : ascii) : is_white (lower_char c) = is_white c.
Proof. destruct c as [[] [] [] [] [] [] [] []]; reflexivity. Qed.

Lemma lower_char_of_white (c : ascii) : is_white c = true -> lower_char c = c.
Proof. destruct c as [[] [] [] [] [] [] [] []]; intros H; try reflexivity; discriminate H. Qed.

Lemma toLowerCase_app (a b : string) :
  toLowerCase (a ++ b)%string = (toLowerCase a ++ toLowerCase b)%string.
Proof. induction a as [|c a IH]; simpl; [reflexivity | rewrite IH; reflexivity]. Qed.

Lemma toLowerCase_white (w : string) : all_white w = true -> toLowerCase w = w.
Proof.
  induction w as [|c w IH]; simpl; [reflexivity|].
  intros H. apply andb_prop in H as [Hc Hw].
  rewrite (lower_char_of_white c Hc), (IH Hw). reflexivity.
Qed.

Lemma all_white_toLowerCase (s : string) : all_white (toLowerCase s) = all_white s.
Proof.
  induction s as [|c s IH]; simpl; [reflexivity|].
  rewrite lower_char_white, IH. reflexivity.
Qed.

Lemma all_white_app (a b : string) :
  all_white (a ++ b)%string = all_white a && all_white b.
Proof.
  induction a as [|c a IH]; simpl; [reflexivity|].
  rewrite IH, andb_assoc. reflexivity.
Qed.

Lemma trim_start_white_app (w s : string) :
  all_white w = true -> trim_start (w ++ s)%string = trim_start s.
Proof.
  induction w as [|c w IH]; simpl; [reflexivity|].
  intros H. apply andb_prop in H as [Hc Hw]. rewrite Hc. auto.
Qed.

Lemma trim_end_all_white (w : string) : all_white w = true -> trim_end w = "".
Proof.
  induction w as [|c w IH]; simpl; [reflexivity|].
  intros H. apply andb_prop in H as [Hc Hw]. rewrite (IH Hw), Hc. reflexivity.
Qed.

Lemma trim_end_app_white (s w : string) :
  all_white w = true -> trim_end (s ++ w)%string = trim_end s.
Proof.
  intros Hw. induction s as [|c s IH]; simpl.
  - apply trim_end_all_white, Hw.
  - rewrite IH. reflexivity.
Qed.

Lemma trim_app_white (s w : string) :
  all_white w = true -> trim (s ++ w)%string = trim s.
Proof.
  intros Hw. unfold trim. induction s as [|c s IH].
  - change ("" ++ w)%string with w. rewrite (trim_start_all_white w Hw). reflexivity.
  - change (String c s ++ w)%string with (String c (s ++ w)%string).
    cbn [trim_start]. destruct (is_white c); [exact IH|].
    change (String c (s ++ w)%string) with (String c s ++ w)%string.
    apply trim_end_app_white, Hw.
Qed.

Lemma trim_padded (w1 s w2 : string) :
  all_white w1 = true -> all_white w2 = true ->
  trim (w1 ++ s ++ w2)%string = trim s.
Proof.
  intros H1 H2. unfold trim at 1. rewrite (trim_start_white_app w1 _ H1).
  fold (trim (s ++ w2)%string). apply trim_app_white, H2.
Qed.

(** Two texts that differ in letter case and in surrounding white space
    only have one cache key. *)
Lemma cacheKey_normalises (q1 q2 w1 w2 : string) (p s : value) :
  toLowerCase q1 = toLowerCase q2 ->
  all_white w1 = true -> all_white w2 = true ->
  cacheKey (w1 ++ q2 ++ w2)%string p s = cacheKey q1 p s.
Proof.
  intros Hq H1 H2. unfold cacheKey.
  rewrite !toLowerCase_app, (toLowerCase_white w1 H1), (toLowerCase_white w2 H2).
  rewrite (trim_padded _ _ _ H1 H2), Hq. reflexivity.
Qed.

(** ** The cache *)

(** X1.  What [setCachedData] stores under a key, [getCachedData] returns
    for that key during the hour that follows and no longer from the
    3 600 000th millisecond on; reads of every other key are not affected;
    and when the storage refuses the write nothing is stored. *)
Theorem cache_round_trip
    (now now' : Z) (key : string) (data : json) (st : gmap string stored) :
  getCachedData now' (setCachedData true now key data st) key
  = (if now' - now <? 3600000 then data else JNull)
  /\ (forall key', key' <> key ->
        getCachedData now' (setCachedData true now key data st) key'
        = getCachedData now' st key')
  /\ setCachedData false now key data st = st.
Proof.
  unfold getCachedData, setCachedData. split; [|split].
  - rewrite lookup_insert_eq. reflexivity.
  - intros key' Hne. rewrite lookup_insert_ne by congruence. reflexivity.
  - reflexivity.
Qed.

Lemma cache_hit (env : Env) (a : SearchArgs) (token : value) (st : gmap string stored)
    (q : string) (data : json) :
  check_query (query a) = Resolved q ->
  getCachedData (now_at_read env) st
    (cacheKey q (with_default (Num 1) (page a)) (with_default (Num 5) (pageSize a)))
  = data ->
  json_truthy data = true ->
  searchPapers env a token st
  = {| settles := Resolved data; storage_after := st;
       effects := [GetItem (cacheKey q (with_default (Num 1) (page a))
                              (with_default (Num 5) (pageSize a)))] |}.
Proof.
  intros Hc Hg Hd. unfold searchPapers. rewrite Hc, Hg, Hd. reflexivity.
Qed.

Lemma repeat_is_served_from_cache
    (env env' : Env) (a1 a2 : SearchArgs) (token token' : value)
    (st : gmap string stored) (q1 q2 w1 w2 : string) (data : json) (sent : request) :
  query a1 = Str q1 ->
  query a2 = Str (w1 ++ q2 ++ w2)%string ->
  toLowerCase q1 = toLowerCase q2 ->
  all_white w1 = true -> all_white w2 = true ->
  page a1 = page a2 -> pageSize a1 = pageSize a2 ->
  settles (searchPapers env a1 token st) = Resolved data ->
  In (Fetch sent) (effects (searchPapers env a1 token st)) ->
  json_truthy data = true ->
  storage_has_room env = true ->
  now_at_read env' - now_at_write env < 3600000 ->
  let first := searchPapers env a1 token st in
  let second := searchPapers env' a2 token' (storage_after first) in
  settles second = Resolved data
  /\ storage_after second = storage_after first
  /\ (exists key, effects second = [GetItem key]).
Proof.
  intros Hq1 Hq2 Hlow Hw1 Hw2 Hp Hs Hres Hfetch Hdata Hroom Hfresh first second.
  set (key := cacheKey q1 (with_default (Num 1) (page a1))
                (with_default (Num 5) (pageSize a1))).
  assert (Hc1 : check_query (query a1) = Resolved q1).
  { revert Hres. unfold searchPapers. rewrite Hq1.
    destruct (check_query (Str q1)) as [q|e] eqn:E; [|discriminate].
    intros _. revert E. unfold check_query.
    destruct (negb (truthy (Str q1))); [discriminate|].
    destruct (negb (truthy (Str (trim q1)))); [discriminate|]. auto. }
  assert (Hvisible : all_white q1 = false).
  { destruct (all_white q1) eqn:E; [|reflexivity].
    rewrite Hq1, (check_query_missing (Str q1)) in Hc1; [discriminate|].
    right; right. eauto. }
  assert (Hc2 : check_query (query a2) = Resolved (w1 ++ q2 ++ w2)%string).
  { rewrite Hq2. apply check_query_text.
    rewrite !all_white_app, <- (all_white_toLowerCase q2), <- Hlow,
      all_white_toLowerCase, Hvisible, andb_false_r. reflexivity. }
  assert (Hst : storage_after first = <[key := Entry data (now_at_write env)]> st).
  { unfold first in *. revert Hres Hfetch. unfold searchPapers. rewrite Hc1. fold key.
    destruct (json_truthy (getCachedData (now_at_read env) st key));
      cbn [settles storage_after effects].
    - intros _ [H|[]]. discriminate H.
    - destruct (read_reply _ _) as [d|e]; cbn [settles storage_after]; [|discriminate].
      intros [= ->] _. unfold setCachedData. rewrite Hroom. reflexivity. }
  assert (Hkey : cacheKey (w1 ++ q2 ++ w2)%string (with_default (Num 1) (page a2))
                   (with_default (Num 5) (pageSize a2)) = key).
  { rewrite <- Hp, <- Hs. apply cacheKey_normalises; assumption. }
  unfold second.
  rewrite (cache_hit env' a2 token' (storage_after first) _ data Hc2).
  - cbn. rewrite Hkey. eauto.
  - rewrite Hkey, Hst. unfold getCachedData. rewrite lookup_insert_eq.
    destruct (Z.ltb_spec (now_at_read env' - now_at_write env) 3600000);
      [reflexivity | lia].
  - exact Hdata.
Qed.

(** X2.  Once a search has been answered by the backend with a truthy
    document and the storage took the entry, the same search repeated
    within the hour is answered from the cache: no request is sent and the
    storage is not written.  The repeat may come with another token, with
    other filters, and with the query in another letter case or padded
    with white space. *)
Theorem search_answered_from_cache
    (env env' : Env) (a1 a2 : SearchArgs) (token token' : value)
    (st : gmap string stored) (q1 q2 w1 w2 : string) (data : json) (sent : request) :
  query a1 = Str q1 ->
  query a2 = Str (w1 ++ q2 ++ w2)%string ->
  toLowerCase q1 = toLowerCase q2 ->
  all_white w1 = true -> all_white w2 = true ->
  page a1 = page a2 -> pageSize a1 = pageSize a2 ->
  settles (searchPapers env a1 token st) = Resolved data ->
  In (Fetch sent) (effects (searchPapers env a1 token st)) ->
  json_truthy data = true ->
  storage_has_room env = true ->
  now_at_read env' - now_at_write env < 3600000 ->
  let first := searchPapers env a1 token st in
  let second := searchPapers env' a2 token' (storage_after first) in
  settles second = Resolved data
  /\ storage_after second = storage_after first
  /\ (exists key, effects second = [GetItem key]).
Proof.
  intros. eapply repeat_is_served_from_cache; eassumption.
Qed.

(** X3.  [searchPapers] writes to the storage only after a response that
    is ok and has a JSON body: a search that is rejected leaves the storage
    as it was, and a search that resolves changes at most the entry under
    its own cache key, which then holds the document it resolved with. *)
Theorem searchPapers_storage_discipline
    (env : Env) (a : SearchArgs) (token : value) (st : gmap string stored) :
  let r := searchPapers env a token st in
  (forall e, settles r = Rejected e ->
     storage_after r = st /\ forall k v, ~ In (SetItem k v) (effects r))
  /\ (forall k, storage_after r !! k <> st !! k ->
        exists q data,
          check_query (query a) = Resolved q
          /\ k = cacheKey q (with_default (Num 1) (page a)) (with_default (Num 5) (pageSize a))
          /\ settles r = Resolved data
          /\ storage_after r !! k = Some (Entry data (now_at_write env))).
Proof.
  cbv zeta. unfold searchPapers.
  destruct (check_query (query a)) as [q|e0] eqn:Hc.
  2:{ cbn. split; [intros e _; split; [reflexivity | intros k v []] | intros k H; congruence]. }
  set (key := cacheKey q _ _).
  destruct (json_truthy (getCachedData (now_at_read env) st key)).
  { cbn. split; [intros e H; discriminate H | intros k H; congruence]. }
  destruct (read_reply _ _) as [d|e1]; cbn [settles storage_after effects].
  - split; [intros e H; discriminate H|].
    intros k Hk. unfold setCachedData in *.
    destruct (storage_has_room env); [|congruence].
    destruct (decide (key = k)) as [<-|Hne].
    + exists q, d. rewrite lookup_insert_eq. auto.
    + rewrite lookup_insert_ne in Hk by exact Hne. congruence.
  - split; [|intros k H; congruence].
    intros e _. split; [reflexivity|].
    intros k v [H|[H|[]]]; discriminate H.
Qed.

(** ** Numbers written and read back *)

Lemma digit_char (c : ascii) (d : Z) :
  Dashboard.digit_of c = Some d ->
  is_white c = false /\ Ascii.eqb "_" c = false
  /\ Dashboard.parseInt (String c "") = number_of <$> Dashboard.read_digits (String c "") None
  /\ forall rest, Dashboard.parseInt (String c rest)
                  = number_of <$> Dashboard.read_digits (String c rest) None.
Proof.
  destruct c as [[] [] [] [] [] [] [] []]; intros H; try discriminate H;
    repeat split; reflexivity.
Qed.

Lemma digit_of_written (d : N) :
  (d < 10)%N -> Dashboard.digit_of (ascii_of_N (48 + d)) = Some (Z.of_N d).
Proof.
  intros H.
  assert (E : (d = 0 \/ d = 1 \/ d = 2 \/ d = 3 \/ d = 4 \/ d = 5 \/ d = 6
               \/ d = 7 \/ d = 8 \/ d = 9)%N) by lia.
  repeat (destruct E as [-> | E]; [reflexivity|]). subst. reflexivity.
Qed.

Lemma digits_fuel_app (fuel : nat) (n : N) (acc rest : string) :
  digits_fuel fuel n (acc ++ rest)%string = (digits_fuel fuel n acc ++ rest)%string.
Proof.
  revert n acc. induction fuel as [|fuel IH]; intros n acc; simpl; [reflexivity|].
  destruct (N.eqb (n / 10) 0); [reflexivity|].
  apply (IH (n / 10)%N (String (ascii_of_N (48 + n mod 10)) acc)).
Qed.

Lemma digits_fuel_S (fuel : nat) (n : N) (acc : string) :
  digits_fuel (S fuel) n acc
  = if N.eqb (n / 10) 0 then String (ascii_of_N (48 + n mod 10)) acc
    else digits_fuel fuel (n / 10) (String (ascii_of_N (48 + n mod 10)) acc).
Proof. reflexivity. Qed.

Lemma read_digits_written (fuel : nat) :
  forall (n : N) (acc : string) (a : option Z),
    (n < 2 ^ N.of_nat (S fuel))%N ->
    exists p, 0 < p /\ Z.of_N n < p
      /\ Dashboard.read_digits (digits_fuel (S fuel) n acc) a
         = Dashboard.read_digits acc (Some (default 0 a * p + Z.of_N n)).
Proof.
  induction fuel as [|fuel IH]; intros n acc a Hn.
  - assert (Hq : (n / 10 = 0)%N) by (apply N.div_small; change (2 ^ N.of_nat 1)%N with 2%N in Hn; lia).
    exists 10. rewrite digits_fuel_S, Hq. cbn [N.eqb Dashboard.read_digits].
    rewrite digit_of_written by (apply N.mod_lt; lia).
    rewrite N.mod_small by (change (2 ^ N.of_nat 1)%N with 2%N in Hn; lia).
    change (2 ^ N.of_nat 1)%N with 2%N in Hn.
    split; [lia|]. split; [lia|]. f_equal. f_equal. lia.
  - rewrite digits_fuel_S. destruct (N.eqb_spec (n / 10) 0) as [Hq|Hq].
    + exists 10. cbn [Dashboard.read_digits].
      rewrite digit_of_written by (apply N.mod_lt; lia).
      assert (n < 10)%N by (apply N.div_small_iff in Hq; lia).
      rewrite N.mod_small by lia.
      split; [lia|]. split; [lia|]. f_equal. f_equal. lia.
    + assert (Hlt : (n / 10 < 2 ^ N.of_nat (S fuel))%N).
      { apply N.Div0.div_lt_upper_bound.
        replace (N.of_nat (S (S fuel))) with (N.succ (N.of_nat (S fuel))) in Hn by lia.
        rewrite N.pow_succ_r' in Hn. lia. }
      destruct (IH (n / 10)%N (String (ascii_of_N (48 + n mod 10)) acc) a Hlt)
        as (p & Hp & Hnp & E).
      exists (10 * p). rewrite E. cbn [Dashboard.read_digits].
      rewrite digit_of_written by (apply N.mod_lt; lia).
      pose proof (N.div_mod n 10 ltac:(lia)) as Hdm.
      pose proof (N.mod_lt n 10 ltac:(lia)) as Hr.
      clear E IH Hq Hlt Hn. generalize (default 0 a). intros a0. cbn [default].
      revert Hdm Hr Hnp. generalize (n / 10)%N (n mod 10)%N. intros q r Hdm Hr Hnp.
      split; [lia|]. split; [lia|]. f_equal. f_equal. unfold id. lia.
Qed.

Lemma digits_bound (n : N) : (n < 2 ^ N.of_nat (S (N.to_nat (N.log2 n))))%N.
Proof.
  replace (N.of_nat (S (N.to_nat (N.log2 n)))) with (N.succ (N.log2 n)) by lia.
  destruct (N.eq_dec n 0%N) as [->|Hn]; [reflexivity|].
  apply N.log2_spec. lia.
Qed.

Lemma read_digits_of_digits (n : N) (rest : string) :
  exists p, 0 < p
    /\ Dashboard.read_digits (digits n ++ rest)%string None
       = Dashboard.read_digits rest (Some (Z.of_N n)).
Proof.
  unfold digits. rewrite <- digits_fuel_app. change ("" ++ rest)%string with rest.
  destruct (read_digits_written (N.to_nat (N.log2 n)) n rest None (digits_bound n))
    as (p & Hp & _ & E).
  exists p. split; [exact Hp|]. rewrite E. reflexivity.
Qed.

Lemma all_digits_fuel (fuel : nat) (n : N) (acc : string) :
  all_digits acc = true -> all_digits (digits_fuel fuel n acc) = true.
Proof.
  revert n acc. induction fuel as [|fuel IH]; intros n acc Hacc; simpl; [exact Hacc|].
  assert (Hd : all_digits (String (ascii_of_N (48 + n mod 10)) acc) = true).
  { simpl. rewrite digit_of_written by (apply N.mod_lt; lia). exact Hacc. }
  destruct (N.eqb (n / 10) 0); [exact Hd | apply IH, Hd].
Qed.

Lemma digits_fuel_nonempty (fuel : nat) (n : N) (acc : string) :
  acc <> "" -> digits_fuel fuel n acc <> "".
Proof.
  revert n acc. induction fuel as [|fuel IH]; intros n acc Hacc; [exact Hacc|].
  rewrite digits_fuel_S. destruct (N.eqb (n / 10) 0); [discriminate|].
  apply IH. discriminate.
Qed.

Lemma digits_shape (n : N) :
  exists c rest, digits n = String c rest /\ all_digits (String c rest) = true.
Proof.
  pose proof (all_digits_fuel (S (N.to_nat (N.log2 n))) n "" eq_refl) as H.
  fold (digits n) in H.
  destruct (digits n) as [|c rest] eqn:E; [|eauto].
  exfalso. revert E. unfold digits. rewrite digits_fuel_S.
  destruct (N.eqb (n / 10) 0); [discriminate|].
  apply digits_fuel_nonempty. discriminate.
Qed.

Lemma read_digits_stops (rest : string) (k : Z) :
  stops rest -> Dashboard.read_digits rest (Some k) = Some k.
Proof. destruct rest as [|c rest]; simpl; [reflexivity | intros ->; reflexivity]. Qed.

(** Below 2^53 a number is written with all its digits and read back as
    it is. *)
Lemma to_string_safe (n : Z) :
  Z.abs n < 2 ^ 53 ->
  to_string (Num n) = if n <? 0 then ("-" ++ digits (Z.to_N (- n)))%string
                      else digits (Z.to_N n).
Proof.
  intros H. change (2 ^ 53) with two53 in H. cbn [to_string].
  destruct (Z.ltb_spec (Z.abs n) two53); [reflexivity | lia].
Qed.

Lemma number_of_safe (n : Z) : Z.abs n < 2 ^ 53 -> number_of n = Finite n.
Proof.
  intros H. change (2 ^ 53) with two53 in H. unfold number_of, round_double.
  destruct (Z.ltb_spec (Z.abs n) two53); [|lia].
  assert (Hbig : two53 < Z.shiftl 1 1024) by (vm_compute; reflexivity).
  unfold overflows. destruct (Z.leb_spec (Z.shiftl 1 1024) (Z.abs n)); [lia|].
  f_equal. destruct (Z.ltb_spec n 0); lia.
Qed.

Lemma parseInt_of_to_string (n : Z) (w rest : string) :
  Z.abs n < 2 ^ 53 -> all_white w = true -> stops rest ->
  Dashboard.parseInt (w ++ to_string (Num n) ++ rest)%string = Some (Finite n).
Proof.
  intros Hn Hw Hrest. unfold Dashboard.parseInt.
  rewrite (trim_start_white_app w _ Hw). rewrite (to_string_safe n Hn).
  rewrite <- (number_of_safe n Hn).
  destruct (Z.ltb_spec n 0) as [Hneg|Hpos].
  - change (("-" ++ digits (Z.to_N (- n))) ++ rest)%string
      with (String "-" (digits (Z.to_N (- n)) ++ rest)%string).
    cbn [trim_start]. change (is_white "-") with false. cbv iota.
    destruct (read_digits_of_digits (Z.to_N (- n)) rest) as (p & _ & E).
    rewrite E, (read_digits_stops rest _ Hrest). cbn [fmap option_fmap option_map].
    f_equal. f_equal. lia.
  - destruct (digits_shape (Z.to_N n)) as (c & r & E & Hd).
    destruct (read_digits_of_digits (Z.to_N n) rest) as (p & _ & E').
    rewrite E in *. cbn [all_digits] in Hd.
    destruct (Dashboard.digit_of c) as [d|] eqn:Hc; [|discriminate].
    destruct (digit_char c d Hc) as (Hwhite & _ & _ & Hparse).
    change ((String c r ++ rest)%string) with (String c (r ++ rest)%string) in *.
    cbn [trim_start]. rewrite Hwhite.
    pose proof (Hparse (r ++ rest)%string) as Hp. unfold Dashboard.parseInt in Hp.
    cbn [trim_start] in Hp. rewrite Hwhite in Hp. rewrite Hp, E'.
    rewrite (read_digits_stops rest _ Hrest). cbn [fmap option_fmap option_map].
    f_equal. f_equal. lia.
Qed.


(** ** Cache keys do not collide *)

Lemma occurs_app (x : ascii) (a b : string) :
  occurs x (a ++ b)%string = occurs x a || occurs x b.
Proof.
  induction a as [|c a IH]; simpl; [reflexivity|].
  rewrite IH, orb_assoc. reflexivity.
Qed.

Lemma split_at_last (x : ascii) (a a' d d' : string) :
  occurs x d = false -> occurs x d' = false ->
  (a ++ String x d)%string = (a' ++ String x d')%string ->
  a = a' /\ d = d'.
Proof.
  intros Hd Hd'. revert a'. induction a as [|c a IH]; intros [|c' a'] E; simpl in E.
  - injection E as ->. auto.
  - injection E as -> ->. rewrite occurs_app in Hd. simpl in Hd.
    rewrite Ascii.eqb_refl, orb_true_r in Hd. discriminate.
  - injection E as -> <-. rewrite occurs_app in Hd'. simpl in Hd'.
    rewrite Ascii.eqb_refl, orb_true_r in Hd'. discriminate.
  - injection E as -> E. destruct (IH a' E) as [-> ->]. auto.
Qed.

Lemma all_digits_no_underscore (s : string) :
  all_digits s = true -> occurs "_" s = false.
Proof.
  induction s as [|c s IH]; cbn [all_digits occurs]; [reflexivity|].
  destruct (Dashboard.digit_of c) as [d|] eqn:Hc; [|discriminate].
  destruct (digit_char c d Hc) as (_ & -> & _). exact IH.
Qed.

Lemma number_no_underscore (n : Z) :
  Z.abs n < 2 ^ 53 -> occurs "_" (to_string (Num n)) = false.
Proof.
  intros Hn. rewrite (to_string_safe n Hn).
  assert (H : forall m, occurs "_" (digits m) = false).
  { intros m. destruct (digits_shape m) as (c & r & -> & Hd).
    apply all_digits_no_underscore, Hd. }
  destruct (n <? 0); [|apply H].
  change ("-" ++ digits (Z.to_N (- n)))%string with (String "-" (digits (Z.to_N (- n)))).
  cbn [occurs]. rewrite H. reflexivity.
Qed.

Lemma to_string_number_inj (n m : Z) :
  Z.abs n < 2 ^ 53 -> Z.abs m < 2 ^ 53 ->
  to_string (Num n) = to_string (Num m) -> n = m.
Proof.
  intros Hn Hm E.
  pose proof (parseInt_of_to_string n "" "" Hn eq_refl I) as En.
  pose proof (parseInt_of_to_string m "" "" Hm eq_refl I) as Em.
  change ("" ++ to_string (Num n) ++ "")%string with (to_string (Num n) ++ "")%string in En.
  change ("" ++ to_string (Num m) ++ "")%string with (to_string (Num m) ++ "")%string in Em.
  rewrite E in En. congruence.
Qed.

(** X5.  Searches whose page and page size are integers below 2^53 in
    magnitude share a cache key only when they agree on the page, on the
    page size and on the query once it is put in lower case and trimmed:
    one page of one search is never served in place of another. *)
Theorem cacheKey_injective (q1 q2 : string) (p1 p2 s1 s2 : Z) :
  Z.abs p1 < 2 ^ 53 -> Z.abs p2 < 2 ^ 53 -> Z.abs s1 < 2 ^ 53 -> Z.abs s2 < 2 ^ 53 ->
  cacheKey q1 (Num p1) (Num s1) = cacheKey q2 (Num p2) (Num s2) ->
  trim (toLowerCase q1) = trim (toLowerCase q2) /\ p1 = p2 /\ s1 = s2.
Proof.
  unfold cacheKey. intros Hp1 Hp2 Hs1 Hs2 E.
  set (n1 := trim (toLowerCase q1)) in *. set (n2 := trim (toLowerCase q2)) in *.
  assert (A : forall a b c : string, (a ++ b ++ c)%string = ((a ++ b) ++ c)%string).
  { intros a b c. induction a as [|x a IH]; [reflexivity|].
    change (String x (a ++ b ++ c)%string = String x ((a ++ b) ++ c)%string).
    f_equal. exact IH. }
  assert (E1 : (("search_" ++ n1 ++ "_" ++ to_string (Num p1)) ++ String "_" (to_string (Num s1)))%string
               = (("search_" ++ n2 ++ "_" ++ to_string (Num p2)) ++ String "_" (to_string (Num s2)))%string).
  { rewrite <- !A. exact E. }
  apply split_at_last in E1 as [E2 Es]; try (apply number_no_underscore; assumption).
  assert (E3 : (("search_" ++ n1) ++ String "_" (to_string (Num p1)))%string
               = (("search_" ++ n2) ++ String "_" (to_string (Num p2)))%string).
  { rewrite <- !A. exact E2. }
  apply split_at_last in E3 as [E4 Ep]; try (apply number_no_underscore; assumption).
  simpl in E4. injection E4 as E4.
  split; [exact E4|]. split; apply to_string_number_inj; assumption.
Qed.

(** ** Searching from the dashboard *)

Lemma trim_starts_visible (s : string) : trim s <> "" -> all_white (trim s) = false.
Proof.
  unfold trim. destruct (trim_start_shape s) as [-> | (c & rest & -> & Hc)].
  - intros H. contradiction H. reflexivity.
  - intros _. cbn [trim_end].
    destruct (trim_end rest); [rewrite Hc|]; cbn [all_white]; rewrite Hc; reflexivity.
Qed.

Lemma truthy_trim (s : string) : truthy (Str (trim s)) = negb (all_white s).
Proof.
  destruct (all_white s) eqn:E.
  - rewrite (trim_all_white s E). reflexivity.
  - apply trim_visible, E.
Qed.

Lemma append_empty_r (s : string) : (s ++ "")%string = s.
Proof.
  induction s as [|c s IH]; [reflexivity|].
  change (String c (s ++ "")%string = String c s). f_equal. exact IH.
Qed.

Lemma truthy_text (s : string) : truthy (Str s) = true <-> s <> "".
Proof.
  cbn [truthy]. destruct (String.eqb_spec s "") as [E|E]; cbn [negb].
  - split; [discriminate | intros H; contradiction].
  - split; [intros _; exact E | reflexivity].
Qed.

Section Searching.
Import SearchPage.
Variables (env : Env) (token : value).

(** What [fetchPapers] leaves when its search reads the cache first. *)
Lemma fetchPapers_reads_cache (q : string) (targetPage : Z)
    (f : Dashboard.FiltersState) (w : world) :
  all_white q = false ->
  let w' := fetchPapers env token q targetPage f w in
  query (ui w') = query (ui w)
  /\ loading (ui w') = false
  /\ filtersState (ui w') = filtersState (ui w)
  /\ (error (ui w') = "" \/ error (ui w') = failed_text)
  /\ (error (ui w') = "" -> page (ui w') = targetPage)
  /\ (error (ui w') <> "" -> papers (ui w') = papers (ui w) /\ page (ui w') = page (ui w))
  /\ exists rest,
       log w' = log w ++ GetItem (cacheKey q (Num targetPage) (Num 5)) :: rest.
Proof.
  intros Hq. cbv zeta. unfold fetchPapers, Dashboard.fetchPapers_args, searchPapers.
  cbn [Api.query Api.page Api.pageSize with_default]. rewrite (check_query_text q Hq).
  change (Num Dashboard.PAGE_SIZE) with (Num 5).
  set (key := cacheKey q (Num targetPage) (Num 5)).
  assert (Hshow : forall response,
            let s' := show_response targetPage response (ui w) in
            query s' = query (ui w) /\ loading s' = false
            /\ filtersState s' = filtersState (ui w)
            /\ (error s' = "" \/ error s' = failed_text)
            /\ (error s' = "" -> page s' = targetPage)
            /\ (error s' <> "" -> papers s' = papers (ui w) /\ page s' = page (ui w))).
  { intros response. destruct response; cbn; unfold failed_text;
      (split; [reflexivity|]); (split; [reflexivity|]); (split; [reflexivity|]);
      (split; [auto|]); split; intros H; auto; try discriminate H;
      contradiction H; reflexivity. }
  destruct (json_truthy (getCachedData (now_at_read env) (storage w) key));
    cbn [settles effects ui log].
  - destruct (Hshow (getCachedData (now_at_read env) (storage w) key))
      as (H1 & H2 & H3 & H4 & H5 & H6).
    repeat (split; [assumption|]). eauto.
  - destruct (read_reply _ _) as [d|e]; cbn [settles effects ui log].
    + destruct (Hshow d) as (H1 & H2 & H3 & H4 & H5 & H6).
      repeat (split; [assumption|]). eexists. cbn. reflexivity.
    + cbn. repeat split; auto; try discriminate. eexists. reflexivity.
Qed.


(** X7.  After a search answered by the backend with a truthy document
    (the entry stored, the hour not over), applying any state of the
    filter controls, clearing the filters or toggling the open-access
    filter runs the search again from the cache: the backend is not
    asked, the storage is not written, and the page shows the same
    results and meta data on page 1. *)
Theorem filters_do_not_change_results
    (text : string) (w0 : world) (data : json) (sent : request) (f : Dashboard.FiltersState) :
  all_white text = false ->
  let first := searchPapers env
                 (Dashboard.fetchPapers_args (Str (trim text)) 1 (filtersState (ui w0)))
                 token (storage w0) in
  settles first = Resolved data ->
  In (Fetch sent) (effects first) ->
  json_truthy data = true ->
  storage_has_room env = true ->
  now_at_read env - now_at_write env < 3600000 ->
  let w1 := handleSearch env token (Some text) w0 in
  forall w2,
    w2 = handleApplyFilters env token (with_filters f w1)
    \/ w2 = handleClearFilters env token (with_filters f w1)
    \/ w2 = handleToggleFilter env token (with_filters f w1) ->
    papers (ui w2) = papers (ui w1)
    /\ meta (ui w2) = meta (ui w1)
    /\ error (ui w2) = ""
    /\ page (ui w2) = 1
    /\ storage w2 = storage w1
    /\ exists key, log w2 = log w1 ++ [GetItem key].
Proof.
  intros Hvis first Hres Hfetch Hdata Hroom Hfresh w1 w2 Hw2.
  assert (Hnq : trim text <> "") by (apply truthy_text; rewrite truthy_trim, Hvis; reflexivity).
  assert (Hnq' : all_white (trim text) = false) by (apply trim_starts_visible, Hnq).
  assert (Hnull : data <> JNull) by (intros ->; discriminate).
  assert (E1 : w1 = {| ui := show_response 1 data (ui (set_query_and_clear (trim text) w0));
                       storage := storage_after first;
                       log := log w0 ++ effects first |}).
  { unfold w1, handleSearch. unfold or_else. rewrite truthy_trim, Hvis. cbn [negb].
    rewrite truthy_trim, Hvis. cbn [negb]. unfold fetchPapers.
    cbn [storage ui log set_query_and_clear filtersState]. fold first. rewrite Hres.
    reflexivity. }
  assert (Hq1 : query (ui w1) = trim text).
  { rewrite E1. cbn [ui]. destruct data; try contradiction; reflexivity. }
  assert (Hagain : forall g wx,
            storage wx = storage w1 -> log wx = log w1 ->
            let w' := fetchPapers env token (trim text) 1 g wx in
            ui w' = show_response 1 data (ui wx)
            /\ storage w' = storage w1
            /\ exists key, log w' = log w1 ++ [GetItem key]).
  { intros g wx Hs Hl. cbv zeta. unfold fetchPapers. rewrite Hs, Hl.
    assert (Est : storage w1 = storage_after first) by (rewrite E1; reflexivity).
    rewrite Est.
    destruct (repeat_is_served_from_cache env env
                (Dashboard.fetchPapers_args (Str (trim text)) 1 (filtersState (ui w0)))
                (Dashboard.fetchPapers_args (Str (trim text)) 1 g)
                token token (storage w0) (trim text) (trim text) "" "" data sent)
      as (S1 & S2 & key & S3); auto.
    { cbn [Dashboard.fetchPapers_args Api.query]. change ("" ++ trim text ++ "")%string
        with (trim text ++ "")%string. rewrite append_empty_r. reflexivity. }
    fold first in S1, S2, S3. rewrite S1, S2, S3. eauto. }
  assert (Hshow : forall s, papers (show_response 1 data s) = papers (ui w1)
                            /\ meta (show_response 1 data s) = meta (ui w1)
                            /\ error (show_response 1 data s) = ""
                            /\ page (show_response 1 data s) = 1).
  { intros s. rewrite E1. cbn [ui]. destruct data; try contradiction; auto. }
  assert (Htruthy : truthy (Str (trim text)) = true) by (apply truthy_text, Hnq).
  destruct Hw2 as [-> | [-> | ->]].
  - unfold handleApplyFilters. cbn [with_filters ui query]. rewrite Hq1, Htruthy. cbn [negb].
    destruct (Hagain (filtersState (ui (with_filters f w1))) (with_filters f w1) eq_refl eq_refl)
      as (U & S & L).
    cbn [with_filters ui filtersState] in U |- *. rewrite U.
    destruct (Hshow (ui (with_filters f w1))) as (P1 & P2 & P3 & P4). auto 10.
  - unfold handleClearFilters. cbn [with_filters ui query]. rewrite Hq1, Htruthy.
    destruct (Hagain Dashboard.createDefaultFilters
                (with_filters Dashboard.createDefaultFilters (with_filters f w1))
                eq_refl eq_refl) as (U & S & L).
    cbn [with_filters ui] in U |- *. rewrite U.
    match goal with |- context [show_response 1 data ?s] =>
      destruct (Hshow s) as (P1 & P2 & P3 & P4) end. auto 10.
  - unfold handleToggleFilter. cbn [with_filters ui query filtersState]. rewrite Hq1, Htruthy.
    match goal with |- context [fetchPapers env token (trim text) 1 ?g ?wx] =>
      destruct (Hagain g wx eq_refl eq_refl) as (U & S & L) end.
    cbn [with_filters ui storage log] in *. rewrite U.
    match goal with |- context [show_response 1 data ?s] =>
      destruct (Hshow s) as (P1 & P2 & P3 & P4) end. auto 10.
Qed.

End Searching.

(** X8.  pages/Dashboard.jsx and ResearchQuery pass the query to
    [searchPapers] as a string, which has no property [query]: the call is
    rejected with "Query is required" before the cache is read or a
    request is sent, whatever the text.  So the search of the older page
    does nothing for a blank text and ends on "Failed to search papers.
    Please try again." with an empty list for every other text. *)
Theorem search_with_a_string_never_succeeds
    (env : Env) (token : value) (text : string) (st : gmap string stored)
    (s : LegacySearch.state) :
  LegacySearch.searchPapers_called env (LegacySearch.Text text) token st
  = {| settles := Rejected (Error "Query is required");
       storage_after := st; effects := [] |}
  /\ LegacySearch.handleSearch env token text st s
     = if all_white text then (s, None)
       else ({| LegacySearch.papers := JArr []; LegacySearch.loading := false;
                LegacySearch.error := "Failed to search papers. Please try again." |},
             Some {| settles := Rejected (Error "Query is required");
                     storage_after := st; effects := [] |}).
Proof.
  split; [reflexivity|].
  unfold LegacySearch.handleSearch. rewrite truthy_trim, negb_involutive.
  destruct (all_white text); reflexivity.
Qed.

(** ** The filter controls *)

(** X9.  When [filtersActive] is false (nothing ticked, nothing typed,
    nothing selected) [buildFilterPayload] builds the empty object.
    Whatever the state, the payload never carries a filter switched off:
    [open_access] is [true] or absent, and the two lists are absent
    rather than empty. *)
Theorem inactive_filters_build_nothing (f : Dashboard.FiltersState) :
  SearchPage.filtersActive f = false ->
  Dashboard.buildFilterPayload f = no_filters
  /\ (forall g, open_access (Dashboard.buildFilterPayload g) <> Some false
                /\ venues (Dashboard.buildFilterPayload g) <> Some []
                /\ publication_types (Dashboard.buildFilterPayload g) <> Some []).
Proof.
  intros H. split.
  - unfold SearchPage.filtersActive in H.
    repeat (apply orb_false_elim in H as [H ?]).
    destruct f as [oa y1 y2 mc vs pts]. cbn in *. subst.
    destruct y1, y2, mc; try discriminate.
    destruct vs, pts; try discriminate. reflexivity.
  - intros g. unfold Dashboard.buildFilterPayload. cbn.
    destruct (Dashboard.openAccess g), (Dashboard.fs_venues g),
      (Dashboard.publicationTypes g); cbn; repeat split; discriminate.
Qed.

Lemma existsb_eqb_In (x : string) (l : list string) :
  existsb (String.eqb x) l = true <-> In x l.
Proof.
  rewrite existsb_exists. split.
  - intros (y & Hy & E). apply String.eqb_eq in E. subst. exact Hy.
  - intros H. exists x. split; [exact H | apply String.eqb_refl].
Qed.

Lemma set_of_spec (l seen : list string) :
  NoDup seen ->
  NoDup (SearchPage.set_of l seen)
  /\ forall x, In x (SearchPage.set_of l seen) <-> In x seen \/ In x l.
Proof.
  revert seen. induction l as [|y l IH]; intros seen Hnd; cbn [SearchPage.set_of].
  - split; [exact Hnd|]. intros x. cbn. tauto.
  - destruct (existsb (String.eqb y) seen) eqn:E.
    + destruct (IH seen Hnd) as [H1 H2]. split; [exact H1|].
      intros x. rewrite H2. apply existsb_eqb_In in E. cbn.
      split; [tauto|]. intros [H|[<-|H]]; auto.
    + assert (Hy : ~ In y seen).
      { intros H. apply existsb_eqb_In in H. congruence. }
      assert (Hnd' : NoDup (seen ++ [y])).
      { apply NoDup_app. split; [exact Hnd|]. split.
        - intros x Hx Hx'. apply list_elem_of_In in Hx, Hx'.
          destruct Hx' as [<-|[]]. contradiction.
        - apply NoDup_singleton. }
      destruct (IH (seen ++ [y]) Hnd') as [H1 H2]. split; [exact H1|].
      intros x. rewrite H2, in_app_iff. cbn. tauto.
Qed.

(** X10.  Ticking an option of a multi-select filter flips that option
    and no other: afterwards the option is in the list exactly when it
    was not before, every other option is in the list exactly when it was
    before, and no option is listed twice. *)
Theorem multiSelectChange_flips (option : string) (prev : list string) :
  NoDup (SearchPage.multiSelectChange option prev)
  /\ (In option (SearchPage.multiSelectChange option prev) <-> ~ In option prev)
  /\ (forall x, x <> option ->
        (In x (SearchPage.multiSelectChange option prev) <-> In x prev)).
Proof.
  unfold SearchPage.multiSelectChange.
  destruct (set_of_spec prev [] NoDup_nil_2) as [Hnd Hin].
  assert (Hin' : forall x, In x (SearchPage.set_of prev []) <-> In x prev).
  { intros x. rewrite Hin. cbn. tauto. }
  destruct (existsb (String.eqb option) (SearchPage.set_of prev [])) eqn:E.
  - apply existsb_eqb_In in E. apply Hin' in E.
    assert (Hf : forall x, In x (filter (fun y => negb (String.eqb option y) = true)
                                   (SearchPage.set_of prev []))
                           <-> x <> option /\ In x prev).
    { intros x. rewrite <- list_elem_of_In, list_elem_of_filter, list_elem_of_In, Hin'.
      rewrite negb_true_iff, String.eqb_neq. split; intros [H1 H2]; split; auto. }
    split; [apply NoDup_filter, Hnd|]. split.
    + rewrite Hf. tauto.
    + intros x Hx. rewrite Hf. tauto.
  - assert (Ho : ~ In option prev).
    { intros H. apply Hin', existsb_eqb_In in H. congruence. }
    split.
    + apply NoDup_app. split; [exact Hnd|]. split; [|apply NoDup_singleton].
      intros x Hx Hx'. apply list_elem_of_In in Hx, Hx'. destruct Hx' as [<-|[]].
      apply Hin' in Hx. contradiction.
    + split.
      * rewrite in_app_iff. cbn. tauto.
      * intros x Hx. rewrite in_app_iff, Hin'. cbn. split; [|tauto].
        intros [H|[H|[]]]; [exact H | congruence].
Qed.

(** ** The chat: one call at a time, one request per question *)

Section ChatMore.
Import ChatModal.
Variable pr : props.

Lemma questions_shown_app (l1 l2 : list message) :
  questions_shown (l1 ++ l2) = questions_shown l1 ++ questions_shown l2.
Proof. unfold questions_shown. apply flat_map_app. Qed.

Lemma answer_message_role (k : ask_kind) (r : settled AskResponse) :
  m_role (answer_message k r) <> user
  /\ questions_shown [answer_message k r] = []
  /\ forall b, turn (Some b) (m_role (answer_message k r)) = if b then Some false else None.
Proof. destruct k, r; cbn; repeat split; try discriminate; intros []; reflexivity. Qed.

Lemma chat_inv_mount : chat_inv pr (mount pr).
Proof.
  unfold chat_inv, mount.
  destruct (negb (truthy (url_key (the_paper pr)))); cbn; auto 10.
Qed.

Lemma chat_inv_ask (k : ask_kind) (question : string) (c : config) :
  paperReady (ui c) = true -> loading (ui c) = false ->
  chat_inv pr c -> chat_inv pr (ask_begin pr k question c).
Proof.
  unfold chat_inv. cbv zeta. intros Hr Hl [Hs H]. rewrite Hr, Hl in H.
  destruct H as (Hp & (first & rest & Hm & Hf & Ht) & Hfl).
  cbn [ask_begin ui sent messages paperReady loading processingPaper in_flight].
  split.
  - rewrite Hs, questions_shown_app, map_app, <- app_assoc. reflexivity.
  - rewrite Hr. split; [exact Hp|]. split.
    + exists first, (rest ++ [plain user question]). rewrite Hm. split; [reflexivity|].
      split; [exact Hf|]. unfold transcript in *.
      rewrite map_app, fold_left_app, Ht. reflexivity.
    + exists k. rewrite Hfl. reflexivity.
Qed.

Lemma chat_inv_step (c : config) (e : event) : chat_inv pr c -> chat_inv pr (step pr c e).
Proof.
  intros H. destruct e as [text | | template | r | k r]; cbn [step].
  - exact H.
  - unfold handleSendMessage, send_blocked.
    destruct (paperReady (ui c)) eqn:Hr, (loading (ui c)) eqn:Hl;
      rewrite ?orb_true_r, ?orb_false_r; cbn [negb orb]; try exact H.
    destruct (negb (truthy (Str (trim (input (ui c)))))); [exact H|].
    apply chat_inv_ask; assumption.
  - unfold quickAsk, quick_blocked.
    destruct (paperReady (ui c)) eqn:Hr, (loading (ui c)) eqn:Hl; cbn [negb orb]; try exact H.
    apply chat_inv_ask; assumption.
  - unfold chat_inv in *. cbv zeta in *. destruct H as [Hs H].
    destruct (paperReady (ui c)) eqn:Hr.
    + destruct H as (Hp & Hm & Hfl).
      assert (Hnone : take_call Preparing (in_flight c) = None).
      { destruct (loading (ui c)); [destruct Hfl as [k ->] | rewrite Hfl]; reflexivity. }
      rewrite Hnone, Hr. auto.
    + destruct H as (Hl & Hq & [[Hfl Hp] | [Hfl Hp]]); rewrite Hfl; cbn [take_call].
      * rewrite bool_decide_eq_true_2 by reflexivity.
        cbn [ui sent in_flight].
        assert (Hq' : questions_shown (messages (ui c)) = [])
          by (destruct Hq as [-> | ->]; reflexivity).
        rewrite Hs, Hq'.
        destruct r as [result|e];
          cbn [initializePaper_resume messages paperReady loading processingPaper];
          rewrite Hl; (split; [reflexivity|]); (split; [reflexivity|]);
          (split; [|reflexivity]); eexists _, []; (split; [reflexivity|]);
          (split; [discriminate | reflexivity]).
      * rewrite Hr. split; [exact Hs|]. auto.
  - unfold chat_inv in *. cbv zeta in *. destruct H as [Hs H].
    destruct (paperReady (ui c)) eqn:Hr.
    + destruct H as (Hp & (first & rest & Hm & Hf & Ht) & Hfl).
      destruct (loading (ui c)) eqn:Hl.
      * destruct Hfl as [k' Hfl]. rewrite Hfl. cbn [take_call].
        destruct (bool_decide_reflect (Asking k = Asking k')) as [E|E].
        -- cbn [ui sent in_flight ask_resume messages paperReady loading processingPaper].
           destruct (answer_message_role k r) as (Hrole & Hnoq & Hturn).
           split.
           ++ rewrite Hs, questions_shown_app, Hnoq, app_nil_r. reflexivity.
           ++ rewrite Hr. split; [exact Hp|]. split; [|reflexivity].
              exists first, (rest ++ [answer_message k r]). rewrite Hm.
              split; [reflexivity|]. split; [exact Hf|].
              unfold transcript in *. rewrite map_app, fold_left_app, Ht. cbn.
              apply (Hturn true).
        -- rewrite Hr, Hl. split; [exact Hs|]. split; [exact Hp|]. split; eauto.
      * rewrite Hfl. cbn [take_call]. rewrite Hr, Hl. split; [exact Hs|].
        split; [exact Hp|]. split; eauto.
    + destruct H as (Hl & Hq & [[Hfl Hp] | [Hfl Hp]]); rewrite Hfl; cbn [take_call].
      * rewrite bool_decide_eq_false_2 by discriminate. rewrite Hr.
        split; [exact Hs|]. auto.
      * rewrite Hr. split; [exact Hs|]. auto.
Qed.

Lemma chat_inv_reachable (events : list event) : chat_inv pr (run pr (mount pr) events).
Proof.
  apply reachable_ind; [apply chat_inv_mount|].
  intros c e H. apply chat_inv_step, H.
Qed.

(** X11.  A mounted chat never waits for two calls at once.  After every
    event either nothing is in flight, or only the preparation is (the
    spinner is on and the paper is not ready), or exactly one question is
    (with [loading] set): [loading] says that a question is in flight and
    [processingPaper] that the preparation is. *)
Theorem one_call_at_a_time (events : list event) :
  let c := run pr (mount pr) events in
  (in_flight c = [] /\ loading (ui c) = false /\ processingPaper (ui c) = false)
  \/ (in_flight c = [Preparing] /\ loading (ui c) = false
      /\ processingPaper (ui c) = true /\ paperReady (ui c) = false)
  \/ (exists k, in_flight c = [Asking k] /\ loading (ui c) = true
                /\ processingPaper (ui c) = false /\ paperReady (ui c) = true).
Proof.
  cbv zeta. pose proof (chat_inv_reachable events) as [_ H].
  cbv zeta in H. destruct (paperReady (ui (run pr (mount pr) events))).
  - destruct H as (Hp & _ & Hfl).
    destruct (loading (ui (run pr (mount pr) events))).
    + destruct Hfl as [k Hk]. right; right. exists k. auto.
    + left. auto.
  - destruct H as (Hl & _ & [[Hfl Hp] | [Hfl Hp]]); auto 10.
Qed.

(** X12.  What a mounted chat has sent is always its preparation request
    (if the paper has a URL key) followed by one question request per
    question shown in the conversation, in the order shown and with the
    text shown, each about the mounted paper and under the component's
    token.  The conversation itself is a first message that is not a
    question, followed by questions each followed by one reply, the last
    question being without reply exactly while [loading] is set. *)
Theorem requests_match_conversation (events : list event) :
  let c := run pr (mount pr) events in
  sent c = sent (mount pr) ++ map (question_request pr) (questions_shown (messages (ui c)))
  /\ match messages (ui c) with
     | [] => paperReady (ui c) = false
     | first :: rest =>
         m_role first <> user
         /\ (paperReady (ui c) = true ->
             transcript (map m_role rest) = Some (loading (ui c)))
     end.
Proof.
  cbv zeta. pose proof (chat_inv_reachable events) as [Hs H].
  split; [exact Hs|]. cbv zeta in H.
  destruct (paperReady (ui (run pr (mount pr) events))) eqn:Hr.
  - destruct H as (_ & (first & rest & -> & Hf & Ht) & _). auto.
  - destruct H as (_ & [-> | ->] & _); [reflexivity|].
    split; discriminate.
Qed.

End ChatMore.

(** ** Selecting papers for comparison *)

Section Selecting.
Import Dashboard.

Lemma has_key_In (k : value) (l : list Paper) :
  existsb (fun q => strict_eq (toggle_key q) k) l = true <-> In k (map toggle_key l).
Proof.
  rewrite existsb_exists, in_map_iff. unfold strict_eq.
  split; intros (q & H1 & H2).
  - apply bool_decide_eq_true in H2. eauto.
  - exists q. split; [exact H2 | apply bool_decide_eq_true, H1].
Qed.

Lemma remove_key_absent (k : value) (l : list Paper) :
  ~ In k (map toggle_key l) ->
  filter (fun q => negb (strict_eq (toggle_key q) k) = true) l = l.
Proof.
  induction l as [|q l IH]; intros H; [reflexivity|].
  cbn in H. rewrite filter_cons_True.
  - rewrite IH by tauto. reflexivity.
  - unfold strict_eq. rewrite bool_decide_eq_false_2 by tauto. reflexivity.
Qed.

Lemma remove_key_spec (k : value) (l : list Paper) (q : Paper) :
  In q (filter (fun q => negb (strict_eq (toggle_key q) k) = true) l)
  <-> In q l /\ toggle_key q <> k.
Proof.
  rewrite <- !list_elem_of_In, list_elem_of_filter. unfold strict_eq.
  rewrite negb_true_iff, bool_decide_eq_false. tauto.
Qed.

Lemma remove_key_NoDup (k : value) (l : list Paper) :
  NoDup (map toggle_key l) ->
  NoDup (map toggle_key (filter (fun q => negb (strict_eq (toggle_key q) k) = true) l)).
Proof.
  induction l as [|q l IH]; intros H; [constructor|].
  cbn in H. apply NoDup_cons in H as [Hq Hl].
  destruct (decide (negb (strict_eq (toggle_key q) k) = true)) as [E|E].
  - rewrite filter_cons_True by exact E. cbn. apply NoDup_cons. split; [|auto].
    rewrite list_elem_of_In, in_map_iff. intros (q' & E' & Hq').
    apply remove_key_spec in Hq' as [Hq' _].
    apply Hq. rewrite list_elem_of_In, in_map_iff. eauto.
  - rewrite filter_cons_False by exact E. auto.
Qed.

(** X13.  Ticking a paper whose key ([url || pdf_url]) is not in the
    selection adds it at the end, and ticking it again restores the
    selection exactly.  Ticking a paper whose key is in the selection
    removes every paper under that key and keeps the others in order. *)
Theorem toggle_twice_restores (p : Paper) (prev : list Paper) :
  (~ In (toggle_key p) (map toggle_key prev) ->
   toggleSelectForCompare p prev = prev ++ [p]
   /\ toggleSelectForCompare p (toggleSelectForCompare p prev) = prev)
  /\ (In (toggle_key p) (map toggle_key prev) ->
      ~ In (toggle_key p) (map toggle_key (toggleSelectForCompare p prev))
      /\ forall q, In q (toggleSelectForCompare p prev)
                   <-> In q prev /\ toggle_key q <> toggle_key p).
Proof.
  unfold toggleSelectForCompare. split.
  - intros H.
    assert (E : existsb (fun q => strict_eq (toggle_key q) (toggle_key p)) prev = false).
    { destruct (existsb _ prev) eqn:E; [|reflexivity]. apply has_key_In in E. contradiction. }
    rewrite E. split; [reflexivity|].
    assert (E' : existsb (fun q => strict_eq (toggle_key q) (toggle_key p)) (prev ++ [p]) = true).
    { apply has_key_In. rewrite map_app, in_app_iff. right. left. reflexivity. }
    rewrite E', filter_app, (remove_key_absent _ _ H), filter_cons_False, app_nil_r.
    + reflexivity.
    + unfold strict_eq. rewrite bool_decide_eq_true_2 by reflexivity. discriminate.
  - intros H. apply has_key_In in H. rewrite H. split.
    + rewrite in_map_iff. intros (q & E & Hq). apply remove_key_spec in Hq. tauto.
    + intros q. apply remove_key_spec.
Qed.

Lemma toggle_NoDup (p : Paper) (sel : list Paper) :
  NoDup (map toggle_key sel) -> NoDup (map toggle_key (toggleSelectForCompare p sel)).
Proof.
  intros H. unfold toggleSelectForCompare.
  destruct (existsb _ sel) eqn:E.
  - apply remove_key_NoDup, H.
  - rewrite map_app. apply NoDup_app. split; [exact H|]. split; [|apply NoDup_singleton].
    intros k Hk Hk'. cbn in Hk'. apply list_elem_of_In in Hk, Hk'.
    destruct Hk' as [<-|[]]. apply has_key_In in Hk. congruence.
Qed.

Lemma toggle_from (p : Paper) (sel : list Paper) (q : Paper) :
  In q (toggleSelectForCompare p sel) -> q = p \/ In q sel.
Proof.
  unfold toggleSelectForCompare. destruct (existsb _ sel).
  - intros H. apply remove_key_spec in H. tauto.
  - rewrite in_app_iff. cbn. intros [H|[<-|[]]]; auto.
Qed.

Lemma toggles_snoc (ps : list Paper) (p : Paper) :
  toggles (ps ++ [p]) = toggleSelectForCompare p (toggles ps).
Proof. unfold toggles. rewrite fold_left_app. reflexivity. Qed.

Lemma toggles_spec (ps : list Paper) :
  NoDup (map toggle_key (toggles ps)) /\ forall q, In q (toggles ps) -> In q ps.
Proof.
  induction ps as [|p ps [IH1 IH2]] using rev_ind.
  - split; [constructor | intros q []].
  - rewrite toggles_snoc. split; [apply toggle_NoDup, IH1|].
    intros q H. apply toggle_from in H as [->|H]; rewrite in_app_iff; cbn; auto.
Qed.

Lemma keys_agree (l : list Paper) :
  Forall (fun p => truthy (toggle_key p) = true) l ->
  map url_key l = map toggle_key l /\ valid_papers l = l.
Proof.
  induction 1 as [|p l Hp _ [IH1 IH2]]; [split; reflexivity|].
  assert (E : url_key p = toggle_key p).
  { unfold url_key. fold (toggle_key p). unfold or_else at 1. rewrite Hp. reflexivity. }
  split.
  - cbn. rewrite E, IH1. reflexivity.
  - unfold valid_papers in *. rewrite filter_cons_True by (rewrite E; exact Hp).
    rewrite IH2. reflexivity.
Qed.

(** X14.  However the boxes of papers that carry a [url] or a [pdf_url]
    are ticked and unticked, the selection never holds one URL key twice
    and every selected paper is valid for comparison: [runCompare] then
    compares exactly the selection, under pairwise different keys. *)
Theorem selection_has_distinct_keys (ps : list Paper) :
  Forall (fun p => truthy (toggle_key p) = true) ps ->
  valid_papers (toggles ps) = toggles ps
  /\ NoDup (map url_key (valid_papers (toggles ps)))
  /\ forall p, SearchPage.isSelected (toggles ps) p = true
               <-> In (url_key p) (map toggle_key (toggles ps)).
Proof.
  intros H. destruct (toggles_spec ps) as [Hnd Hin].
  assert (Hall : Forall (fun p => truthy (toggle_key p) = true) (toggles ps)).
  { apply List.Forall_forall. intros q Hq.
    apply (proj1 (List.Forall_forall _ ps) H q), Hin, Hq. }
  destruct (keys_agree _ Hall) as [E1 E2].
  split; [exact E2|]. split; [rewrite E2, E1; exact Hnd|].
  intros p. unfold SearchPage.isSelected. rewrite <- E1.
  rewrite existsb_exists, in_map_iff. unfold strict_eq.
  split; intros (q & H1 & H2).
  - apply bool_decide_eq_true in H2. eauto.
  - exists q. split; [exact H2 | apply bool_decide_eq_true, H1].
Qed.

(** X15.  Every request [runCompare] sends carries the caller's token and
    a truthy URL: a preparation request has the URL key of its paper both
    as [pdf_url] and in [paper_info]; a comparison request lists at least
    two ids, all truthy, which are the URLs of [papers_info] in the same
    order, and carries the comparison query unchanged. *)
Theorem runCompare_requests_well_formed
    (env : Env) (token : value) (comparisonQuery : string) (s : state) (r : request) :
  In r (snd (runCompare env token comparisonQuery s)) ->
  compare_shaped comparisonQuery (bearer token) r.
Proof.
  unfold runCompare.
  set (valid := valid_papers (selectedForCompare s)).
  assert (Hvalid : forall p, In p valid -> truthy (url_key p) = true).
  { intros p Hp. unfold valid, valid_papers in Hp.
    apply list_elem_of_In, list_elem_of_filter in Hp. tauto. }
  assert (Hprep : In r (map (prepare_request env token) valid) ->
                  compare_shaped comparisonQuery (bearer token) r).
  { rewrite in_map_iff. intros (p & <- & Hp). split; [reflexivity|].
    cbn. split; [apply Hvalid, Hp | reflexivity]. }
  destruct (Nat.ltb_spec (length valid) 2) as [Hlt|Hge]; [intros []|].
  assert (Hcmp : compare_shaped comparisonQuery (bearer token)
                   (compare_request env token comparisonQuery valid)).
  { split; [reflexivity|]. cbn. split; [|split; [|split]].
    - unfold papersInfo. rewrite map_map. reflexivity.
    - apply List.Forall_forall. intros u Hu. apply in_map_iff in Hu as (p & <- & Hp).
      apply Hvalid, Hp.
    - rewrite length_map. exact Hge.
    - reflexivity. }
  destruct (forallb _ _); [|exact Hprep].
  destruct (comparePapers _); cbn [snd]; rewrite in_app_iff;
    (intros [H|[<-|[]]]; [apply Hprep, H | exact Hcmp]).
Qed.

End Selecting.

(** ** Routes *)

(** X16.  While the authentication state is unknown every location shows
    the spinner.  Afterwards every location settles after at most one
    redirect.  A location that matches none of the four routes shows
    nothing, signed in or not.  Of the others, the root shows the landing
    page; a signed-in user gets the dashboard at the three other routes;
    a visitor who is not signed in gets the login page at [/login] and at
    [/dashboard] and the registration page at [/register]. *)
Theorem routes_guard_the_dashboard (loading signed_in : bool) (p : Routes.path) :
  Routes.settle 1 loading signed_in p
  = Some (if loading then Routes.Spinner
          else match p with
               | Routes.unmatched => Routes.Nothing
               | Routes.root => Routes.Landing
               | Routes.register =>
                   if signed_in then Routes.Dashboard else Routes.Register
               | Routes.login | Routes.dashboard =>
                   if signed_in then Routes.Dashboard else Routes.Login
               end)
  /\ (Routes.settle 1 loading signed_in p = Some Routes.Dashboard ->
      loading = false /\ signed_in = true /\ p <> Routes.root /\ p <> Routes.unmatched)
  /\ (Routes.render loading signed_in p = Routes.Nothing <->
      loading = false /\ p = Routes.unmatched).
Proof.
  destruct loading, signed_in, p; (split; [reflexivity|]);
    cbn; intuition (try discriminate; try congruence).
Qed.

(** ** The chatbot form *)

(** X17.  The chatbot form never shows a reply of the assistant, since
    [chatbotMessage] throws for every message: a blank message, or one
    sent while another is pending, changes nothing; every other message is
    shown trimmed as the user's, followed by the system message "Chatbot
    error. Please try again.", with the input cleared. *)
Theorem chatbot_always_fails (token : value) (s : Bot.state) :
  let s' := Bot.sendBotMessage token s in
  (all_white (Bot.botInput s) = true \/ Bot.botLoading s = true -> s' = s)
  /\ (all_white (Bot.botInput s) = false -> Bot.botLoading s = false ->
      Bot.botMessages s'
      = Bot.botMessages s ++ [(Bot.user, trim (Bot.botInput s));
                              (Bot.system, "Chatbot error. Please try again.")]
      /\ Bot.botInput s' = "" /\ Bot.botLoading s' = false)
  /\ (forall m, In m (Bot.botMessages s') -> fst m = Bot.assistant ->
                In m (Bot.botMessages s)).
Proof.
  cbv zeta. unfold Bot.sendBotMessage. rewrite truthy_trim, negb_involutive.
  destruct (all_white (Bot.botInput s)) eqn:Hw, (Bot.botLoading s) eqn:Hl; cbn.
  all: split; [intros; try reflexivity; intuition discriminate|].
  all: split; [intros; try discriminate; try (rewrite <- app_assoc; auto)|].
  all: try (intros m Hm _; exact Hm).
  intros m Hm Ha. rewrite !in_app_iff in Hm. cbn in Hm.
  destruct Hm as [[Hm|[<-|[]]]|[<-|[]]]; [exact Hm | discriminate Ha | discriminate Ha].
Qed.

(** ** More on the guard, on paging and on readiness *)

Lemma searchPapers_query_missing_run
    (env : Env) (a : SearchArgs) (token : value) (st : gmap string stored) :
  missing_query (query a) ->
  searchPapers env a token st
  = {| settles := Rejected (Error "Query is required"); storage_after := st; effects := [] |}.
Proof.
  intros H. unfold searchPapers. rewrite (check_query_missing _ H). reflexivity.
Qed.

(** X18.  The guard of [searchPapers] refuses nothing but missing
    queries: a query with a visible character always gets as far as the
    cache, which is read under the key of that query, and the call is
    never rejected with "Query is required"; a truthy query that is not a
    string ends in a type error before the cache is read. *)
Theorem searchPapers_accepts_visible_query
    (env : Env) (a : SearchArgs) (token : value) (st : gmap string stored) :
  (forall s, query a = Str s -> all_white s = false ->
     settles (searchPapers env a token st) <> Rejected (Error "Query is required")
     /\ exists rest,
          effects (searchPapers env a token st)
          = GetItem (cacheKey s (with_default (Num 1) (page a))
                       (with_default (Num 5) (pageSize a))) :: rest)
  /\ (forall n, query a = Num n -> n <> 0 ->
        searchPapers env a token st
        = {| settles := Rejected TypeError; storage_after := st; effects := [] |}).
Proof.
  split.
  - intros s Hq Hs. unfold searchPapers. rewrite Hq, (check_query_text s Hs).
    destruct (json_truthy _); cbn [settles effects]; [split; [discriminate | eauto]|].
    unfold read_reply. destruct (search_backend env _) as [|[] [d|]];
      cbn [settles effects]; split; try discriminate; eauto.
  - intros n Hq Hn. unfold searchPapers, check_query. rewrite Hq. cbn [truthy].
    destruct (Z.eqb_spec n 0); [contradiction | reflexivity].
Qed.

Section Paging.
Import SearchPage.
Variables (env : Env) (token : value).

(** X19.  [handlePageChange] and [handleApplyFilters] test the text of the
    search box for emptiness, [searchPapers] tests it for white space: with
    an empty box both do nothing; with a box that holds white space only
    both end on the error text without reading the cache or sending a
    request, and the results, the page number and the storage stay as they
    were; with a visible text both read the cache under the key of that
    text, [handlePageChange] for the next or the previous page and
    [handleApplyFilters] for the first. *)
Theorem paging_follows_the_search_box (d : direction) (w : world) :
  let q := query (ui w) in
  let target := match d with next => page (ui w) + 1 | prev => page (ui w) - 1 end in
  let turned := handlePageChange env token d w in
  let applied := handleApplyFilters env token w in
  let refused (w' : world) :=
    error (ui w') = "Failed to search papers. Please try again."%string
    /\ log w' = log w /\ storage w' = storage w
    /\ papers (ui w') = papers (ui w) /\ page (ui w') = page (ui w)
    /\ loading (ui w') = false in
  if String.eqb q "" then turned = w /\ applied = w
  else if all_white q then refused turned /\ refused applied
  else
    (exists rest, log turned = log w ++ GetItem (cacheKey q (Num target) (Num 5)) :: rest)
    /\ (exists rest, log applied = log w ++ GetItem (cacheKey q (Num 1) (Num 5)) :: rest).
Proof.
  cbv zeta. unfold handlePageChange, handleApplyFilters. cbn [truthy].
  destruct (String.eqb_spec (query (ui w)) "") as [E|E]; cbn [negb]; [auto|].
  destruct (all_white (query (ui w))) eqn:Hw.
  - unfold fetchPapers, Dashboard.fetchPapers_args.
    rewrite !searchPapers_query_missing_run
      by (right; right; exists (query (ui w)); auto).
    cbn. rewrite app_nil_r. auto 20.
  - split.
    + destruct d;
        match goal with |- context [fetchPapers env token ?q ?t ?f w] =>
          destruct (fetchPapers_reads_cache env token q t f w Hw) as (_ & _ & _ & _ & _ & _ & H)
        end; exact H.
    + match goal with |- context [fetchPapers env token ?q ?t ?f w] =>
        destruct (fetchPapers_reads_cache env token q t f w Hw) as (_ & _ & _ & _ & _ & _ & H)
      end; exact H.
Qed.

End Paging.

Section Ready.
Import ChatModal.
Variable pr : props.

(** X20.  Readiness is permanent: once [paperReady] is set, no later
    event resets it, and the source type recorded at that moment (none
    after a failed preparation) is never replaced. *)
Theorem ready_is_permanent (events later : list event) :
  let c := run pr (mount pr) events in
  let c' := run pr (mount pr) (events ++ later) in
  paperReady (ui c) = true ->
  paperReady (ui c') = true /\ sourceType (ui c') = sourceType (ui c).
Proof.
  cbv zeta. intros Hr. rewrite run_app.
  pose proof (waiting_inv_reachable pr events) as Hw. unfold waiting_inv in Hw.
  rewrite Hr in Hw.
  destruct (prepared_stays pr (run pr (mount pr) events) later Hw) as (H1 & H2 & _).
  rewrite H1, H2. auto.
Qed.

End Ready.

Lemma ready_is_permanent_witness :
  let pr := chat_of (paper_at "http://x/a.pdf" "A") in
  let events := [ChatModal.PrepareSettles (Resolved {| fr_source_type := Str "arxiv_pdf" |})] in
  let later := [ChatModal.Quick "Summarize"; ChatModal.PrepareSettles (Rejected TypeError);
                ChatModal.AskSettles ChatModal.FromButton (Rejected TypeError)] in
  ChatModal.paperReady (ChatModal.ui (ChatModal.run pr (ChatModal.mount pr) events)) = true
  /\ ChatModal.sourceType (ChatModal.ui (ChatModal.run pr (ChatModal.mount pr) (events ++ later)))
     = Str "arxiv_pdf".
Proof.
  intros pr events later. split; [reflexivity|].
  destruct (ready_is_permanent pr events later eq_refl) as [_ H]. exact H.
Defined.

(** ** Instances of the further properties *)

Lemma routes_guard_the_dashboard_witness :
  Routes.settle 1 false true Routes.login = Some Routes.Dashboard
  /\ false = false /\ true = true
  /\ Routes.login <> Routes.root /\ Routes.login <> Routes.unmatched.
Proof.
  split; [reflexivity|].
  exact (proj1 (proj2 (routes_guard_the_dashboard false true Routes.login)) eq_refl).
Defined.

Lemma search_answered_from_cache_witness :
  let first := searchPapers results_env (graph_args None) (Str "t0") ∅ in
  let second := searchPapers results_env graph_args_again (Str "t1") (storage_after first) in
  settles first = Resolved two_results
  /\ In (Fetch graph_request) (effects first)
  /\ settles second = Resolved two_results
  /\ storage_after second = storage_after first.
Proof.
  intros first second.
  assert (H1 : settles first = Resolved two_results) by reflexivity.
  assert (H2 : In (Fetch graph_request) (effects first)) by (right; left; reflexivity).
  destruct (search_answered_from_cache results_env results_env (graph_args None)
              graph_args_again (Str "t0") (Str "t1") ∅ "Graph Learning" "graph learning"
              "  " " " two_results graph_request
              eq_refl eq_refl eq_refl eq_refl eq_refl eq_refl eq_refl H1 H2
              eq_refl eq_refl eq_refl) as (S1 & S2 & _).
  auto.
Defined.


Lemma cacheKey_injective_witness :
  Z.abs 1 < 2 ^ 53 /\ Z.abs 5 < 2 ^ 53
  /\ cacheKey " Graph Nets" (Num 1) (Num 5) = cacheKey "graph nets " (Num 1) (Num 5)
  /\ trim (toLowerCase " Graph Nets") = trim (toLowerCase "graph nets ").
Proof.
  split; [reflexivity|]. split; [reflexivity|]. split; [reflexivity|].
  exact (proj1 (cacheKey_injective " Graph Nets" "graph nets " 1 1 5 5
                  eq_refl eq_refl eq_refl eq_refl eq_refl)).
Defined.

Lemma filters_do_not_change_results_witness :
  let w1 := SearchPage.handleSearch results_env (Str "t0") (Some " graph nets ") fresh_page in
  let w2 := SearchPage.handleApplyFilters results_env (Str "t0")
              (SearchPage.with_filters busy_filters w1) in
  all_white " graph nets " = false
  /\ SearchPage.papers (SearchPage.ui w1) = JArr [JStr "paper 1"; JStr "paper 2"]
  /\ SearchPage.papers (SearchPage.ui w2) = SearchPage.papers (SearchPage.ui w1)
  /\ SearchPage.storage w2 = SearchPage.storage w1.
Proof.
  intros w1 w2.
  assert (Hin : In (Fetch nets_request)
                  (effects (searchPapers results_env
                              (Dashboard.fetchPapers_args (Str (trim " graph nets ")) 1
                                 (SearchPage.filtersState (SearchPage.ui fresh_page)))
                              (Str "t0") (SearchPage.storage fresh_page))))
    by (right; left; reflexivity).
  destruct (filters_do_not_change_results results_env (Str "t0") " graph nets " fresh_page
              two_results nets_request busy_filters eq_refl eq_refl Hin eq_refl eq_refl
              eq_refl w2 (or_introl eq_refl)) as (P1 & _ & _ & _ & P5 & _).
  split; [reflexivity|]. split; [reflexivity|]. split; [exact P1 | exact P5].
Defined.

Lemma inactive_filters_build_nothing_witness :
  SearchPage.filtersActive Dashboard.createDefaultFilters = false
  /\ Dashboard.buildFilterPayload Dashboard.createDefaultFilters = no_filters.
Proof.
  split; [reflexivity|].
  exact (proj1 (inactive_filters_build_nothing Dashboard.createDefaultFilters eq_refl)).
Defined.

Lemma toggle_twice_restores_witness :
  let a := paper_at "http://x/a.pdf" "A" in
  let b := paper_at "http://x/b.pdf" "B" in
  ~ In (toggle_key b) (map toggle_key [a])
  /\ Dashboard.toggleSelectForCompare b (Dashboard.toggleSelectForCompare b [a]) = [a]
  /\ In (toggle_key a) (map toggle_key [a; b])
  /\ ~ In (toggle_key a) (map toggle_key (Dashboard.toggleSelectForCompare a [a; b])).
Proof.
  intros a b.
  assert (H1 : ~ In (toggle_key b) (map toggle_key [a])).
  { intros [H|[]]. discriminate H. }
  assert (H2 : In (toggle_key a) (map toggle_key [a; b])) by (left; reflexivity).
  split; [exact H1|].
  split; [exact (proj2 (proj1 (toggle_twice_restores b [a]) H1))|].
  split; [exact H2|].
  exact (proj1 (proj2 (toggle_twice_restores a [a; b]) H2)).
Defined.

Lemma selection_has_distinct_keys_witness :
  Forall (fun p => truthy (toggle_key p) = true) three_ticks
  /\ toggles three_ticks = [paper_at "http://x/b.pdf" "B"]
  /\ NoDup (map url_key (Dashboard.valid_papers (toggles three_ticks))).
Proof.
  assert (H : Forall (fun p => truthy (toggle_key p) = true) three_ticks)
    by (repeat constructor).
  split; [exact H|]. split; [reflexivity|].
  exact (proj1 (proj2 (selection_has_distinct_keys three_ticks H))).
Defined.

Lemma runCompare_requests_well_formed_witness :
  let r := Dashboard.compare_request ok_env (Str "t0") "methods"
             (Dashboard.valid_papers (Dashboard.selectedForCompare two_selected)) in
  In r (snd (Dashboard.runCompare ok_env (Str "t0") "methods" two_selected))
  /\ compare_shaped "methods" "Bearer t0" r.
Proof.
  intros r.
  assert (H : In r (snd (Dashboard.runCompare ok_env (Str "t0") "methods" two_selected)))
    by (right; right; left; reflexivity).
  split; [exact H|].
  exact (runCompare_requests_well_formed ok_env (Str "t0") "methods" two_selected r H).
Defined.

Lemma chatbot_always_fails_witness :
  let s := {| Bot.botMessages := []; Bot.botInput := " hello "; Bot.botLoading := false |} in
  all_white (Bot.botInput s) = false
  /\ Bot.botMessages (Bot.sendBotMessage (Str "t0") s)
     = [(Bot.user, "hello"); (Bot.system, "Chatbot error. Please try again.")].
Proof.
  intros s. split; [reflexivity|].
  exact (proj1 (proj1 (proj2 (chatbot_always_fails (Str "t0") s)) eq_refl eq_refl)).
Defined.
